(** * TDA: a 9x9 Sudoku grid printer and its row, column and box checkers

    A shallow embedding of the two C++ programs of the repository
    ([src/main.cpp], the printer alone, and the second program with the
    three checkers), and the properties of their functions.

    The programs work on [int x[9][9]], write to [cout] and keep a local
    [set<int>].  Here a grid is a list of rows, an [int] is a [Z], the
    seen set is a [gset Z], and every function runs in a small monad that
    records what the call does (cells visited, values inserted in the seen
    set, text written) or stops at the first out-of-range array access.

    The only arithmetic of the programs is on loop counters between 0 and
    9 ([i++], [i%3], [i/3*3 + j/3]); the values of the grid are compared
    and printed, never computed with.  No [int] operation can overflow, so
    [Z] arithmetic with the truncating [quot] and [rem] of C++ is exact. *)

From Stdlib Require Import ZArith Strings.String Strings.Ascii Numbers.DecimalString
  Numbers.DecimalZ.
From stdpp Require Import base numbers list list_numbers gmap sets.

Local Open Scope Z_scope.

(** ** Observable actions and the execution monad *)

(** What a call does, in program order.  [Visit r c]: an iteration of a
    scanning loop is at cell [x[r][c]] and reads it (the body names
    [x[r][c]] up to three times; the grid is never written, so the
    iteration is one visit).  [Insert v]: [num.insert(v)].  [Clear]:
    [num.clear()].  [Print s]: [cout << s]. *)
Inductive event : Type :=
  | Visit (r c : Z)
  | Insert (v : Z)
  | Clear
  | Print (s : string).

Abbreviation trace := (list event).

(** A call either returns a value after a trace of actions, or reaches an
    array access outside [x[0..8][0..8]] (undefined behaviour in C++;
    the indices of the access are kept), or is cut off by the fuel that
    bounds the [while] loop of the model. *)
Inductive outcome (A : Type) : Type :=
  | Val (a : A) (t : trace)
  | Undefined (r c : Z)
  | OutOfFuel.

Arguments Val {A} a t.
Arguments Undefined {A} r c.
Arguments OutOfFuel {A}.

Definition outcome_bind {A B : Type} (f : A → outcome B) (m : outcome A) : outcome B :=
  match m with
  | Val a t =>
      match f a with
      | Val b t' => Val b (t ++ t')
      | Undefined r c => Undefined r c
      | OutOfFuel => OutOfFuel
      end
  | Undefined r c => Undefined r c
  | OutOfFuel => OutOfFuel
  end.

#[global] Instance outcome_ret : MRet outcome := λ A a, Val a [].
#[global] Instance outcome_mbind : MBind outcome := λ A B f m, outcome_bind f m.

Definition emit (e : event) : outcome unit := Val tt [e].

(** ** Text *)

Definition nl : string := String "010"%char EmptyString.
Definition tab : string := String "009"%char EmptyString.

(** [cout << endl]: a newline (the flush has no effect on the text). *)
Definition endl : outcome unit := emit (Print nl).

(** [cout << n] for an [int]: decimal digits, a leading minus sign for a
    negative number. *)
Definition show_int (n : Z) : string := NilEmpty.string_of_int (Z.to_int n).

(** The text a trace leaves on standard output. *)
Fixpoint stdout (t : trace) : string :=
  match t with
  | [] => EmptyString
  | Print s :: t' => String.append s (stdout t')
  | _ :: t' => stdout t'
  end.

(** The cells a trace visits, in order, one entry per visit. *)
Fixpoint visits (t : trace) : list (Z * Z) :=
  match t with
  | [] => []
  | Visit r c :: t' => (r, c) :: visits t'
  | _ :: t' => visits t'
  end.

(** The values a trace inserts in the seen set, in order. *)
Fixpoint inserts (t : trace) : list Z :=
  match t with
  | [] => []
  | Insert v :: t' => v :: inserts t'
  | _ :: t' => inserts t'
  end.

(** The number of [num.clear()] calls of a trace. *)
Fixpoint clears (t : trace) : nat :=
  match t with
  | [] => O
  | Clear :: t' => S (clears t')
  | _ :: t' => clears t'
  end.

(** ** The grid *)

(** [int x[9][9]]: a list of rows.  [grid_wf] is the shape the C++ type
    fixes; the values are any [int]s. *)
Abbreviation grid := (list (list Z)).

Definition grid_wf (x : grid) : Prop :=
  length x = 9%nat ∧ Forall (λ row : list Z, length row = 9%nat) x.

Definition in_bounds (i : Z) : bool := (0 <=? i) && (i <? 9).

(** The value stored at [x[r][c]], if there is such a cell. *)
Definition cell (x : grid) (r c : Z) : option Z :=
  if in_bounds r && in_bounds c
  then row ← x !! Z.to_nat r; row !! Z.to_nat c
  else None.

(** The read of [x[r][c]] a loop iteration performs. *)
Definition visit (x : grid) (r c : Z) : outcome Z :=
  match cell x r c with
  | Some v => Val v [Visit r c]
  | None => Undefined r c
  end.

(** [for (int i = 0; i < 9; i++)]: the values [i] takes. *)
Definition idx9 : list Z := seqZ 0 9.

(** A [for] loop over the indices [idx] whose body updates the local
    state [s] and never leaves the loop early ([continue] ends the body,
    not the loop). *)
Fixpoint for_each {I S : Type} (body : I → S → outcome S) (idx : list I) (s : S)
  : outcome S :=
  match idx with
  | [] => mret s
  | i :: idx' => s' ← body i s; for_each body idx' s'
  end.

(** ** The printer *)

Definition dashes : string := "-------------------------".

Module MainCpp.

(** [print_board] of [src/main.cpp]. *)
Definition print_cell (x : grid) (rows cols : Z) (_ : unit) : outcome unit :=
  (if cols `rem` 3 =? 0 then emit (Print "| ") else mret tt);;
  v ← visit x rows cols;
  emit (Print (show_int v));;
  emit (Print " ").

Definition print_row (x : grid) (rows : Z) (_ : unit) : outcome unit :=
  (if rows `rem` 3 =? 0 then emit (Print dashes);; endl else mret tt);;
  for_each (print_cell x rows) idx9 tt;;
  emit (Print "|");;
  endl.

Definition print_board (x : grid) : outcome unit :=
  for_each (print_row x) idx9 tt;;
  emit (Print dashes);;
  endl.

End MainCpp.

(** [print_board] of the checker program. *)
Definition print_cell (x : grid) (rows cols : Z) (_ : unit) : outcome unit :=
  (if cols `rem` 3 =? 0 then emit (Print "| ") else mret tt);;
  v ← visit x rows cols;
  emit (Print (show_int v));;
  emit (Print " ").

Definition print_row (x : grid) (rows : Z) (_ : unit) : outcome unit :=
  (if rows `rem` 3 =? 0 then emit (Print dashes);; endl else mret tt);;
  for_each (print_cell x rows) idx9 tt;;
  emit (Print "|");;
  endl.

Definition print_board (x : grid) : outcome unit :=
  for_each (print_row x) idx9 tt;;
  emit (Print dashes);;
  endl.

(** ** The row and column checkers *)

(** The loop of [check_row] from column [cols] on, [num] being the seen
    set: [true] when the loop runs out, [false] at the first value found
    in [num]. *)
Fixpoint row_scan (x : grid) (rowNum : Z) (cols : list Z) (num : gset Z)
  : outcome bool :=
  match cols with
  | [] => mret true
  | c :: cols' =>
      v ← visit x rowNum c;
      if v =? 0 then row_scan x rowNum cols' num
      else if decide (v ∈ num)
           then emit (Print "dupe");; endl;; mret false
           else emit (Insert v);; row_scan x rowNum cols' ({[v]} ∪ num)
  end.

Definition check_row (x : grid) (rowNum : Z) : outcome bool :=
  row_scan x rowNum idx9 ∅.

Fixpoint col_scan (x : grid) (colNum : Z) (rows : list Z) (num : gset Z)
  : outcome bool :=
  match rows with
  | [] => mret true
  | r :: rows' =>
      v ← visit x r colNum;
      if v =? 0 then col_scan x colNum rows' num
      else if decide (v ∈ num)
           then emit (Print "dupe");; endl;; mret false
           else emit (Insert v);; col_scan x colNum rows' ({[v]} ∪ num)
  end.

Definition check_col (x : grid) (colNum : Z) : outcome bool :=
  col_scan x colNum idx9 ∅.

(** ** The box checker *)

(** The box a cell belongs to: [rows/3 * 3 + cols/3], with the truncating
    division of C++. *)
Definition box_of (rows cols : Z) : Z := rows `quot` 3 * 3 + cols `quot` 3.

(** The body of the two nested [for] loops of [check_box]. *)
Definition box_cell (x : grid) (boxNum rows cols : Z) (num : gset Z)
  : outcome (gset Z) :=
  v ← visit x rows cols;
  if v =? 0 then mret num
  else if box_of rows cols =? boxNum
       then if decide (v ∈ num)
            then emit (Print "dupe in box-");; emit (Print (show_int boxNum));; endl;;
                 emit (Print (String.append tab "dupe for number: "));;
                 emit (Print (show_int v));; endl;;
                 mret num
            else emit (Insert v);; mret ({[v]} ∪ num)
       else mret num.

Definition box_scan (x : grid) (boxNum : Z) (num : gset Z) : outcome (gset Z) :=
  for_each (λ rows, for_each (box_cell x boxNum rows) idx9) idx9 num.

(** [while (boxNum != 9) { ...; num.clear(); boxNum++; }], at most [fuel]
    times round the loop.  [check_box] starts it at box 0 with fuel for
    nine rounds; [box_while_run] shows that the fuel never runs out. *)
Fixpoint box_while (fuel : nat) (x : grid) (boxNum : Z) (num : gset Z)
  : outcome bool :=
  if boxNum =? 9 then mret true
  else match fuel with
       | O => OutOfFuel
       | S fuel' =>
           box_scan x boxNum num;;
           emit Clear;;
           box_while fuel' x (boxNum + 1) ∅
       end.

Definition check_box (x : grid) : outcome bool := box_while 9 x 0 ∅.

(** ** The two boards of the programs *)

(** The board of [src/main.cpp], then the board of the checker program. *)
Definition board_main : grid :=
  [ [0;0;0;0;0;0;0;0;1];
    [0;0;0;0;0;0;0;1;0];
    [0;0;0;0;0;0;1;0;0];
    [0;0;0;0;0;1;0;0;0];
    [0;0;0;0;1;0;0;0;0];
    [0;0;0;1;0;0;0;0;0];
    [0;0;1;0;0;0;0;0;0];
    [0;1;0;0;0;0;0;0;0];
    [1;0;0;0;0;0;0;0;0] ].

Definition board : grid :=
  [ [1;2;3;4;5;6;7;8;1];
    [2;0;0;0;0;0;0;1;0];
    [3;0;0;0;0;0;1;0;0];
    [4;0;0;0;0;1;0;0;0];
    [5;0;0;0;1;0;0;0;0];
    [6;0;0;1;0;0;0;0;0];
    [7;0;1;0;0;0;0;0;0];
    [8;1;0;0;0;0;0;0;0];
    [1;0;0;0;0;0;0;0;0] ].

(** [board] with another value in its centre cell: row 0 and column 0
    are those of [board]. *)
Definition board_alt : grid :=
  [ [1;2;3;4;5;6;7;8;1];
    [2;0;0;0;0;0;0;1;0];
    [3;0;0;0;0;0;1;0;0];
    [4;0;0;0;0;1;0;0;0];
    [5;0;0;0;9;0;0;0;0];
    [6;0;0;1;0;0;0;0;0];
    [7;0;1;0;0;0;0;0;0];
    [8;1;0;0;0;0;0;0;0];
    [1;0;0;0;0;0;0;0;0] ].

(** ** Units and the properties of their values *)

(** A unit is the list of its cells in scan order: a row left to right, a
    column top to bottom, a box in the row-major order of the grid. *)
Definition row_cells (rowNum : Z) : list (Z * Z) := pair rowNum <$> idx9.
Definition col_cells (colNum : Z) : list (Z * Z) := (λ r, (r, colNum)) <$> idx9.
Definition all_cells : list (Z * Z) := r ← idx9; pair r <$> idx9.
Definition box_cells (boxNum : Z) : list (Z * Z) :=
  filter (λ p, box_of p.1 p.2 = boxNum) all_cells.

(** The values of the cells of a unit, in scan order. *)
Definition unit_vals (x : grid) (cells : list (Z * Z)) : list Z :=
  omap (λ p, cell x p.1 p.2) cells.

(** Position [k] of [l] holds a non-zero value that an earlier position
    holds too. *)
Definition dup_at (l : list Z) (k : nat) : Prop :=
  ∃ v i, l !! k = Some v ∧ v ≠ 0 ∧ (i < k)%nat ∧ l !! i = Some v.

(** [k] is the first such position. *)
Definition first_dup (l : list Z) (k : nat) : Prop :=
  dup_at l k ∧ ∀ k', (k' < k)%nat → ¬ dup_at l k'.

(** Two or more identical non-zero values. *)
Definition has_dup (l : list Z) : Prop :=
  ∃ i j v, i ≠ j ∧ l !! i = Some v ∧ l !! j = Some v ∧ v ≠ 0.

(** Every non-zero value occurs at most once. *)
Definition unit_unique (l : list Z) : Prop :=
  ∀ i j v, l !! i = Some v → l !! j = Some v → v ≠ 0 → i = j.

(** The number of occurrences of [v] in [l]. *)
Definition occurrences {A : Type} `{EqDecision A} (v : A) (l : list A) : nat :=
  length (filter (λ w, w = v) l).

(** The loop shared by [check_row] and [check_col], over the cells of a
    unit. *)
Fixpoint scan_cells (x : grid) (cells : list (Z * Z)) (num : gset Z) : outcome bool :=
  match cells with
  | [] => mret true
  | p :: cells' =>
      v ← visit x p.1 p.2;
      if v =? 0 then scan_cells x cells' num
      else if decide (v ∈ num)
           then emit (Print "dupe");; endl;; mret false
           else emit (Insert v);; scan_cells x cells' ({[v]} ∪ num)
  end.

(** The values a scan with seen set [num] finds already seen, in order:
    zeros are passed over, a value not yet seen is added to the set. *)
Fixpoint dups (l : list Z) (num : gset Z) : list Z :=
  match l with
  | [] => []
  | v :: l' =>
      if v =? 0 then dups l' num
      else if decide (v ∈ num) then v :: dups l' num
           else dups l' ({[v]} ∪ num)
  end.

(** The position of the first of them. *)
Fixpoint dup_index (l : list Z) (num : gset Z) : option nat :=
  match l with
  | [] => None
  | v :: l' =>
      if v =? 0 then S <$> dup_index l' num
      else if decide (v ∈ num) then Some O
           else S <$> dup_index l' ({[v]} ∪ num)
  end.

(** The two lines [check_box] writes for a value [v] found twice in box
    [boxNum]. *)
Definition box_diag (p : Z * Z) : string :=
  String.append "dupe in box-" (String.append (show_int p.1) (String.append nl
    (String.append tab (String.append "dupe for number: "
      (String.append (show_int p.2) nl))))).

(** The duplicates of all boxes, box by box from an empty seen set, as
    pairs of box index and value. *)
Definition box_dups (x : grid) : list (Z * Z) :=
  b ← idx9; pair b <$> dups (unit_vals x (box_cells b)) ∅.

Definition concat_text (l : list string) : string :=
  foldr String.append EmptyString l.

(** ** Lines of text *)

(** The lines of a text, each ended by a newline (the last one may lack
    it). *)
Fixpoint lines (s : string) : list string :=
  match s with
  | EmptyString => []
  | String c s' =>
      if Ascii.eqb c "010"%char then EmptyString :: lines s'
      else match lines s' with
           | [] => [String c EmptyString]
           | l :: ls => String c l :: ls
           end
  end.

Fixpoint count_char (c : ascii) (s : string) : nat :=
  match s with
  | EmptyString => O
  | String d s' => ((if Ascii.eqb d c then 1 else 0) + count_char c s')%nat
  end.

(** A row as the specification describes its line: a bar before the
    cells of columns 0, 3 and 6, every cell followed by a space, a
    closing bar. *)
Definition spec_cell_text (v : Z) : string := String.append (show_int v) " ".

Definition spec_content_line (row : list Z) : string :=
  String.append "| " (String.append (concat_text (spec_cell_text <$> take 3 row))
  (String.append "| " (String.append (concat_text (spec_cell_text <$> take 3 (drop 3 row)))
  (String.append "| " (String.append (concat_text (spec_cell_text <$> drop 6 row)) "|"))))).

(** ** The box printer and the two programs *)

(** The body of the two nested [for] loops of [print_box]: the cell is
    read, and its value written, only when it lies in box [boxNum]. *)
Definition print_box_cell (x : grid) (boxNum i j : Z) (_ : unit) : outcome unit :=
  if box_of i j =? boxNum
  then v ← visit x i j; emit (Print (show_int v))
  else mret tt.

Definition print_box (x : grid) (boxNum : Z) : outcome unit :=
  for_each (λ i, for_each (print_box_cell x boxNum i) idx9) idx9 tt.

(** [cout << b] for a [bool] (no [boolalpha]): 1 or 0. *)
Definition show_bool (b : bool) : string := if b then "1" else "0".

Module MainProgram.

(** [main] of [src/main.cpp]; the result is the exit status. *)
Definition main : outcome Z :=
  MainCpp.print_board board_main;;
  mret 0.

End MainProgram.

(** [main] of the checker program: each checker runs, writing its
    diagnostics, before its result is written. *)
Definition main : outcome Z :=
  print_board board;;
  endl;;
  r ← check_row board 0;
  emit (Print (show_bool r));; endl;;
  c ← check_col board 0;
  emit (Print (show_bool c));; endl;;
  b ← check_box board;
  emit (Print (show_bool b));; endl;;
  mret 0.

(** ** Further notions *)

(** The non-zero values of a list, in order. *)
Definition nonzero (l : list Z) : list Z := filter (λ v, v ≠ 0) l.

(** The 13 lines of a printed board. *)
Definition board_lines (x : grid) : list string :=
  match spec_content_line <$> x with
  | [l0; l1; l2; l3; l4; l5; l6; l7; l8] =>
      [dashes; l0; l1; l2; dashes; l3; l4; l5; dashes; l6; l7; l8; dashes]
  | _ => []
  end.

(** The decimal text of a number read back. *)
Definition read_int (s : string) : option Z :=
  Z.of_int <$> NilEmpty.int_of_string s.

(** What [print_box] does at the cells of a list that lie in box
    [boxNum]. *)
Definition print_box_trace (x : grid) (boxNum : Z) (cells : list (Z * Z)) : trace :=
  p ← filter (λ p, box_of p.1 p.2 = boxNum) cells;
  match cell x p.1 p.2 with
  | Some v => [Visit p.1 p.2; Print (show_int v)]
  | None => []
  end.

(** ** Auxiliary notions of the proofs *)

(** Every cell of a unit of a well-formed grid exists. *)
Definition cells_ok (x : grid) (cells : list (Z * Z)) : Prop :=
  Forall (λ p, is_Some (cell x p.1 p.2)) cells.

(** What a scan of existing cells does, read off the values of the unit. *)
Definition scan_result (cells : list (Z * Z)) (k : option nat) (o : outcome bool) : Prop :=
  ∃ t, o = Val (bool_decide (k = None)) t
     ∧ stdout t = match k with
                  | Some _ => String.append "dupe" nl
                  | None => EmptyString
                  end
     ∧ visits t = match k with
                  | Some k => take (S k) cells
                  | None => cells
                  end
     ∧ Forall (λ v, v ≠ 0) (inserts t)
     ∧ clears t = O.

(** [dup_at] when the scan starts with the values of [num] already seen. *)
Definition dup_at_from (num : gset Z) (l : list Z) (k : nat) : Prop :=
  ∃ v, l !! k = Some v ∧ v ≠ 0 ∧ (v ∈ num ∨ ∃ i, (i < k)%nat ∧ l !! i = Some v).

(** Two grids hold the same values in the given cells. *)
Definition agree_on (x y : grid) (cells : list (Z * Z)) : Prop :=
  Forall (λ p, cell x p.1 p.2 = cell y p.1 p.2) cells.

(** * Properties *)

(** ** The monad and the projections of a trace *)

Lemma bind_Val {A B : Type} (a : A) (t : trace) (f : A → outcome B) :
  (Val a t ≫= f) = match f a with
                   | Val b t' => Val b (t ++ t')
                   | Undefined r c => Undefined r c
                   | OutOfFuel => OutOfFuel
                   end.
Proof. reflexivity. Qed.

Lemma bind_assoc {A B C : Type} (m : outcome A) (f : A → outcome B) (g : B → outcome C) :
  ((m ≫= f) ≫= g) = (m ≫= λ a, f a ≫= g).
Proof.
  destruct m as [a t| |]; [|reflexivity..].
  rewrite !bind_Val. destruct (f a) as [b t'| |]; [|reflexivity..].
  rewrite !bind_Val. destruct (g b) as [c t''| |]; [|reflexivity..].
  by rewrite app_assoc.
Qed.

Lemma text_app_nil_l (s : string) : String.append EmptyString s = s.
Proof. reflexivity. Qed.

Lemma text_app_cons (a : ascii) (s1 s2 : string) :
  String.append (String a s1) s2 = String a (String.append s1 s2).
Proof. reflexivity. Qed.

Lemma text_app_assoc (s1 s2 s3 : string) :
  String.append (String.append s1 s2) s3 = String.append s1 (String.append s2 s3).
Proof. induction s1; rewrite ?text_app_nil_l, ?text_app_cons; congruence. Qed.

Lemma text_app_nil_r (s : string) : String.append s EmptyString = s.
Proof. induction s; rewrite ?text_app_nil_l, ?text_app_cons; congruence. Qed.

Lemma stdout_app (t1 t2 : trace) :
  stdout (t1 ++ t2) = String.append (stdout t1) (stdout t2).
Proof.
  induction t1 as [|[]]; simpl; try done.
  by rewrite IHt1, text_app_assoc.
Qed.

Lemma visits_app (t1 t2 : trace) : visits (t1 ++ t2) = visits t1 ++ visits t2.
Proof. induction t1 as [|[]]; simpl; rewrite ?IHt1; done. Qed.

Lemma inserts_app (t1 t2 : trace) : inserts (t1 ++ t2) = inserts t1 ++ inserts t2.
Proof. induction t1 as [|[]]; simpl; rewrite ?IHt1; done. Qed.

Lemma clears_app (t1 t2 : trace) : clears (t1 ++ t2) = (clears t1 + clears t2)%nat.
Proof. induction t1 as [|[]]; simpl; rewrite ?IHt1; done. Qed.

Lemma for_each_app {I S : Type} (body : I → S → outcome S) (l1 l2 : list I) (s : S) :
  for_each body (l1 ++ l2) s = (for_each body l1 s ≫= for_each body l2).
Proof.
  revert s. induction l1 as [|i l1 IH]; intros s; simpl.
  - by destruct (for_each body l2 s).
  - destruct (body i s) as [s' t| |]; simpl; [|reflexivity..].
    rewrite IH. destruct (for_each body l1 s') as [s'' t'| |]; simpl; [|reflexivity..].
    destruct (for_each body l2 s'') as [s3 t3| |]; [|reflexivity..].
    by rewrite app_assoc.
Qed.

(** ** The grid and its cells *)

Lemma idx9_eq : idx9 = [0; 1; 2; 3; 4; 5; 6; 7; 8].
Proof. reflexivity. Qed.

Lemma in_bounds_spec (i : Z) : in_bounds i = true ↔ 0 ≤ i < 9.
Proof. unfold in_bounds. rewrite andb_true_iff, Z.leb_le, Z.ltb_lt. done. Qed.

Lemma elem_of_idx9 (i : Z) : i ∈ idx9 ↔ 0 ≤ i < 9.
Proof. unfold idx9. rewrite elem_of_seqZ. lia. Qed.

Lemma cell_Some_bounds (x : grid) (r c v : Z) :
  cell x r c = Some v → 0 ≤ r < 9 ∧ 0 ≤ c < 9.
Proof.
  unfold cell. destruct (in_bounds r) eqn:Hr, (in_bounds c) eqn:Hc; simpl; try done.
  intros _. by rewrite <-!in_bounds_spec.
Qed.

Lemma cell_wf (x : grid) (r c : Z) :
  grid_wf x → 0 ≤ r < 9 → 0 ≤ c < 9 → is_Some (cell x r c).
Proof.
  intros [Hlen Hrows] Hr Hc. unfold cell.
  rewrite (proj2 (in_bounds_spec r) Hr), (proj2 (in_bounds_spec c) Hc). simpl.
  destruct (lookup_lt_is_Some_2 x (Z.to_nat r)) as [row Hrow]; [lia|].
  rewrite Hrow. simpl. apply lookup_lt_is_Some_2.
  rewrite (Forall_lookup_1 _ _ _ _ Hrows Hrow). lia.
Qed.

Lemma cell_out_of_bounds (x : grid) (r c : Z) :
  ¬ (0 ≤ r < 9 ∧ 0 ≤ c < 9) → cell x r c = None.
Proof.
  intros H. destruct (cell x r c) as [v|] eqn:Hv; [|done].
  by apply cell_Some_bounds in Hv.
Qed.

Lemma row_cells_ok (x : grid) (r : Z) : grid_wf x → 0 ≤ r < 9 → cells_ok x (row_cells r).
Proof.
  intros Hx Hr. apply Forall_fmap, Forall_forall. intros c Hc. simpl.
  apply cell_wf; [done..|]. by apply elem_of_idx9.
Qed.

Lemma col_cells_ok (x : grid) (c : Z) : grid_wf x → 0 ≤ c < 9 → cells_ok x (col_cells c).
Proof.
  intros Hx Hc. apply Forall_fmap, Forall_forall. intros r Hr. simpl.
  apply cell_wf; [done| |done]. by apply elem_of_idx9.
Qed.

Lemma elem_of_all_cells (p : Z * Z) : p ∈ all_cells ↔ 0 ≤ p.1 < 9 ∧ 0 ≤ p.2 < 9.
Proof.
  unfold all_cells. rewrite list_elem_of_bind. split.
  - intros (r & Hp & Hr). apply list_elem_of_fmap in Hp as (c & -> & Hc).
    simpl. by rewrite <-!elem_of_idx9.
  - intros [Hr Hc]. exists p.1. rewrite list_elem_of_fmap, !elem_of_idx9.
    split; [|done]. exists p.2. split; [by destruct p|by apply elem_of_idx9].
Qed.

Lemma all_cells_ok (x : grid) : grid_wf x → cells_ok x all_cells.
Proof.
  intros Hx. apply Forall_forall. intros p Hp.
  apply elem_of_all_cells in Hp as [Hr Hc]. by apply cell_wf.
Qed.

Lemma unit_vals_cons (x : grid) (p : Z * Z) (cells : list (Z * Z)) (v : Z) :
  cell x p.1 p.2 = Some v → unit_vals x (p :: cells) = v :: unit_vals x cells.
Proof. intros H. unfold unit_vals. simpl. by rewrite H. Qed.

Lemma unit_vals_length (x : grid) (cells : list (Z * Z)) :
  cells_ok x cells → length (unit_vals x cells) = length cells.
Proof.
  induction 1 as [|p cells [v Hv] _ IH]; [done|].
  rewrite (unit_vals_cons _ _ _ _ Hv). simpl. by rewrite IH.
Qed.

Lemma unit_vals_lookup (x : grid) (cells : list (Z * Z)) (k : nat) (p : Z * Z) :
  cells_ok x cells → cells !! k = Some p → unit_vals x cells !! k = cell x p.1 p.2.
Proof.
  intros Hok. revert k. induction Hok as [|q cells [v Hv] _ IH]; intros k Hk; [done|].
  rewrite (unit_vals_cons _ _ _ _ Hv). destruct k as [|k]; simpl in *.
  - by simplify_eq.
  - by apply IH.
Qed.

(** The values of a row are its cells from the left, those of a column
    its cells from the top. *)
Lemma row_vals_lookup (x : grid) (n : Z) (k : nat) :
  grid_wf x → 0 ≤ n < 9 → (k < 9)%nat →
  unit_vals x (row_cells n) !! k = cell x n (Z.of_nat k).
Proof.
  intros Hx Hn Hk.
  rewrite (unit_vals_lookup x (row_cells n) k (n, Z.of_nat k)); [done|by apply row_cells_ok|].
  unfold row_cells, idx9. rewrite list_lookup_fmap, lookup_seqZ_lt by lia. done.
Qed.

Lemma col_vals_lookup (x : grid) (n : Z) (k : nat) :
  grid_wf x → 0 ≤ n < 9 → (k < 9)%nat →
  unit_vals x (col_cells n) !! k = cell x (Z.of_nat k) n.
Proof.
  intros Hx Hn Hk.
  rewrite (unit_vals_lookup x (col_cells n) k (Z.of_nat k, n)); [done|by apply col_cells_ok|].
  unfold col_cells, idx9. rewrite list_lookup_fmap, lookup_seqZ_lt by lia. done.
Qed.

(** ** The scan of a unit *)

Lemma row_scan_cells (x : grid) (rowNum : Z) (cols : list Z) (num : gset Z) :
  row_scan x rowNum cols num = scan_cells x (pair rowNum <$> cols) num.
Proof.
  revert num. induction cols as [|c cols IH]; intros num; [done|].
  simpl. destruct (visit x rowNum c) as [v t| |]; simpl; [|done..].
  destruct (v =? 0); [by rewrite IH|].
  destruct (decide (v ∈ num)); [done|]. simpl. by rewrite IH.
Qed.

Lemma col_scan_cells (x : grid) (colNum : Z) (rows : list Z) (num : gset Z) :
  col_scan x colNum rows num = scan_cells x ((λ r, (r, colNum)) <$> rows) num.
Proof.
  revert num. induction rows as [|r rows IH]; intros num; [done|].
  simpl. destruct (visit x r colNum) as [v t| |]; simpl; [|done..].
  destruct (v =? 0); [by rewrite IH|].
  destruct (decide (v ∈ num)); [done|]. simpl. by rewrite IH.
Qed.

Lemma check_row_cells (x : grid) (rowNum : Z) :
  check_row x rowNum = scan_cells x (row_cells rowNum) ∅.
Proof. apply row_scan_cells. Qed.

Lemma check_col_cells (x : grid) (colNum : Z) :
  check_col x colNum = scan_cells x (col_cells colNum) ∅.
Proof. apply col_scan_cells. Qed.

Lemma scan_cells_run (x : grid) (cells : list (Z * Z)) (num : gset Z) :
  cells_ok x cells →
  scan_result cells (dup_index (unit_vals x cells) num) (scan_cells x cells num).
Proof.
  intros Hok. revert num. induction Hok as [|p cells [v Hv] _ IH]; intros num.
  { by exists []. }
  rewrite (unit_vals_cons _ _ _ _ Hv). simpl. unfold visit. rewrite Hv. simpl.
  destruct (Z.eqb_spec v 0) as [->|Hv0].
  - destruct (IH num) as (t & -> & Hout & Hvis & Hins & Hcl).
    exists (Visit p.1 p.2 :: t). simpl.
    destruct (dup_index (unit_vals x cells) num) as [k|]; simpl;
      rewrite Hout, Hvis; by destruct p.
  - destruct (decide (v ∈ num)) as [Hin|Hin].
    + eexists. split; [reflexivity|]. simpl. by destruct p.
    + simpl. destruct (IH ({[v]} ∪ num)) as (t & -> & Hout & Hvis & Hins & Hcl).
      exists (Visit p.1 p.2 :: Insert v :: t). simpl.
      destruct (dup_index (unit_vals x cells) ({[v]} ∪ num)) as [k|]; simpl;
        rewrite Hout, Hvis; destruct p; repeat split; try done; by constructor.
Qed.

(** ** The first duplicate of a list of values *)

Lemma dup_at_from_empty (l : list Z) (k : nat) : dup_at_from ∅ l k ↔ dup_at l k.
Proof.
  unfold dup_at_from, dup_at. split.
  - intros (v & Hk & Hv & [Hin|(i & Hi & Hl)]); [set_solver|]. by exists v, i.
  - intros (v & i & Hk & Hv & Hi & Hl). exists v. eauto 6.
Qed.

Lemma dup_at_from_head (num : gset Z) (w : Z) (l : list Z) :
  dup_at_from num (w :: l) O ↔ w ≠ 0 ∧ w ∈ num.
Proof.
  unfold dup_at_from. split.
  - intros (v & Hk & Hv & [Hin|(i & Hi & _)]); [|lia]. simpl in Hk. by simplify_eq.
  - intros [Hw Hin]. exists w. auto.
Qed.

Lemma dup_at_from_cons (num : gset Z) (w : Z) (l : list Z) (k : nat) :
  dup_at_from num (w :: l) (S k) ↔ dup_at_from ({[w]} ∪ num) l k.
Proof.
  unfold dup_at_from. split.
  - intros (v & Hk & Hv & [Hin|(i & Hi & Hl)]); simpl in Hk;
      exists v; (split_and!; [done..|]).
    + left. set_solver.
    + destruct i as [|i]; simpl in Hl.
      * left. set_solver.
      * right. exists i. split; [lia|done].
  - intros (v & Hk & Hv & [Hin|(i & Hi & Hl)]); exists v; simpl;
      (split_and!; [done..|]).
    + apply elem_of_union in Hin as [Hin|Hin]; [|by left].
      apply elem_of_singleton in Hin as ->. right. exists O. split; [lia|done].
    + right. exists (S i). split; [lia|done].
Qed.

Lemma dup_at_from_zero_seen (num : gset Z) (l : list Z) (k : nat) :
  dup_at_from ({[0]} ∪ num) l k ↔ dup_at_from num l k.
Proof.
  unfold dup_at_from. split; intros (v & Hk & Hv & H); exists v;
    (split_and!; [done..|]); destruct H as [Hin|H]; auto.
  - left. apply elem_of_union in Hin as [Hin|Hin]; [|done].
    by apply elem_of_singleton in Hin.
  - left. by apply elem_of_union_r.
Qed.

(** [dup_index] finds the first duplicate, and finds none only when
    there is none. *)
Lemma dup_index_spec (l : list Z) (num : gset Z) :
  match dup_index l num with
  | Some k => dup_at_from num l k ∧ ∀ k', (k' < k)%nat → ¬ dup_at_from num l k'
  | None => ∀ k, ¬ dup_at_from num l k
  end.
Proof.
  revert num. induction l as [|v l IH]; intros num; simpl.
  { intros k (v & Hk & _). done. }
  destruct (Z.eqb_spec v 0) as [->|Hv0].
  - specialize (IH num). destruct (dup_index l num) as [k|]; simpl.
    + destruct IH as [Hk Hmin]. split.
      * by apply dup_at_from_cons, dup_at_from_zero_seen.
      * intros [|k'] Hlt; [rewrite dup_at_from_head; by intros [? ?]|].
        rewrite dup_at_from_cons, dup_at_from_zero_seen. apply Hmin. lia.
    + intros [|k]; [rewrite dup_at_from_head; by intros [? ?]|].
      rewrite dup_at_from_cons, dup_at_from_zero_seen. apply IH.
  - destruct (decide (v ∈ num)) as [Hin|Hin].
    + split; [by apply dup_at_from_head|]. intros k' Hk'. lia.
    + specialize (IH ({[v]} ∪ num)).
      destruct (dup_index l ({[v]} ∪ num)) as [k|]; simpl.
      * destruct IH as [Hk Hmin]. split; [by apply dup_at_from_cons|].
        intros [|k'] Hlt; [rewrite dup_at_from_head; by intros [? ?]|].
        rewrite dup_at_from_cons. apply Hmin. lia.
      * intros [|k]; [rewrite dup_at_from_head; by intros [? ?]|].
        rewrite dup_at_from_cons. apply IH.
Qed.

Lemma dup_index_first (l : list Z) (k : nat) :
  dup_index l ∅ = Some k → first_dup l k.
Proof.
  intros H. pose proof (dup_index_spec l ∅) as Hs. rewrite H in Hs.
  destruct Hs as [Hk Hmin]. split; [by apply dup_at_from_empty|].
  intros k' Hlt. rewrite <-dup_at_from_empty. by apply Hmin.
Qed.

Lemma first_dup_unique (l : list Z) (k1 k2 : nat) :
  first_dup l k1 → first_dup l k2 → k1 = k2.
Proof.
  intros [H1 M1] [H2 M2].
  destruct (lt_eq_lt_dec k1 k2) as [[Hlt| ->]|Hlt]; [|done|].
  - by destruct (M2 k1 Hlt).
  - by destruct (M1 k2 Hlt).
Qed.

Lemma has_dup_dup_at (l : list Z) : has_dup l → ∃ k, dup_at l k.
Proof.
  intros (i & j & v & Hij & Hi & Hj & Hv).
  destruct (decide (i < j)%nat).
  - exists j, v, i. done.
  - exists i, v, j. split_and!; [done..|lia|done].
Qed.

Lemma has_dup_index (l : list Z) : has_dup l → ∃ k, dup_index l ∅ = Some k.
Proof.
  intros [k Hk]%has_dup_dup_at. pose proof (dup_index_spec l ∅) as Hs.
  destruct (dup_index l ∅) as [k'|]; [by exists k'|].
  destruct (Hs k). by apply dup_at_from_empty.
Qed.

Lemma unit_unique_index (l : list Z) : unit_unique l → dup_index l ∅ = None.
Proof.
  intros Hu. pose proof (dup_index_spec l ∅) as Hs.
  destruct (dup_index l ∅) as [k|]; [|done].
  destruct Hs as [(v & i & Hk & Hv & Hi & Hl)%dup_at_from_empty _].
  pose proof (Hu _ _ _ Hk Hl Hv). lia.
Qed.

Lemma dup_index_dups (l : list Z) (num : gset Z) :
  dup_index l num = None ↔ dups l num = [].
Proof.
  revert num. induction l as [|v l IH]; intros num; simpl; [done|].
  destruct (v =? 0).
  - rewrite <-IH. by destruct (dup_index l num).
  - destruct (decide (v ∈ num)); [done|].
    rewrite <-IH. by destruct (dup_index l ({[v]} ∪ num)).
Qed.

(** ** The row and column checkers *)

Lemma scan_cells_agree (x y : grid) (cells : list (Z * Z)) (num : gset Z) :
  agree_on x y cells → scan_cells x cells num = scan_cells y cells num.
Proof.
  intros Hag. revert num. induction Hag as [|p cells Hp _ IH]; intros num; [done|].
  simpl. unfold visit. rewrite Hp. destruct (cell y p.1 p.2) as [v|]; [|done].
  simpl. destruct (v =? 0); [by rewrite IH|].
  destruct (decide (v ∈ num)); [done|]. simpl. by rewrite IH.
Qed.

Lemma scan_cells_first_undefined (x : grid) (p : Z * Z) (cells : list (Z * Z)) (num : gset Z) :
  ¬ (0 ≤ p.1 < 9 ∧ 0 ≤ p.2 < 9) → scan_cells x (p :: cells) num = Undefined p.1 p.2.
Proof. intros H. simpl. unfold visit. by rewrite cell_out_of_bounds. Qed.

Lemma scan_cells_in_bounds (x : grid) (cells : list (Z * Z)) (num : gset Z) (b : bool) (t : trace) :
  scan_cells x cells num = Val b t → Forall (λ p, 0 ≤ p.1 < 9 ∧ 0 ≤ p.2 < 9) (visits t).
Proof.
  revert num b t. induction cells as [|p cells IH]; intros num b t; simpl.
  { intros [= <- <-]. constructor. }
  unfold visit. destruct (cell x p.1 p.2) as [v|] eqn:Hv; [|done]. simpl.
  apply cell_Some_bounds in Hv.
  destruct (v =? 0).
  - destruct (scan_cells x cells num) as [b' t'| |] eqn:Hs; [|done..].
    intros [= <- <-]. simpl. constructor; [done|]. by eapply IH.
  - destruct (decide (v ∈ num)).
    + intros [= <- <-]. simpl. constructor; [done|constructor].
    + simpl. destruct (scan_cells x cells ({[v]} ∪ num)) as [b' t'| |] eqn:Hs; [|done..].
      intros [= <- <-]. simpl. constructor; [done|]. by eapply IH.
Qed.

(** C1. In a 9x9 grid, for a row index [n] in [0,8] whose row holds two
    or more identical non-zero values, [check_row] returns false, writes
    exactly the one line [dupe], and visits the cells of the row from the
    left up to and including the first position [k] whose non-zero value
    occurred before, and no cell after it; [check_col] does the same for a
    column index, top to bottom. *)
Theorem check_row_col_first_duplicate (x : grid) (n : Z) :
  grid_wf x → 0 ≤ n < 9 →
  (has_dup (unit_vals x (row_cells n)) →
   ∃ k t, first_dup (unit_vals x (row_cells n)) k
        ∧ check_row x n = Val false t
        ∧ stdout t = String.append "dupe" nl
        ∧ visits t = take (S k) (row_cells n))
  ∧
  (has_dup (unit_vals x (col_cells n)) →
   ∃ k t, first_dup (unit_vals x (col_cells n)) k
        ∧ check_col x n = Val false t
        ∧ stdout t = String.append "dupe" nl
        ∧ visits t = take (S k) (col_cells n)).
Proof.
  intros Hx Hn. split.
  - intros [k Hk]%has_dup_index.
    destruct (scan_cells_run x (row_cells n) ∅ (row_cells_ok x n Hx Hn))
      as (t & Ht & Hout & Hvis & _).
    rewrite Hk in Ht, Hout, Hvis. exists k, t.
    rewrite check_row_cells. eauto using dup_index_first.
  - intros [k Hk]%has_dup_index.
    destruct (scan_cells_run x (col_cells n) ∅ (col_cells_ok x n Hx Hn))
      as (t & Ht & Hout & Hvis & _).
    rewrite Hk in Ht, Hout, Hvis. exists k, t.
    rewrite check_col_cells. eauto using dup_index_first.
Qed.

(** C7. [check_row] and [check_col] never test their index: with an index
    outside [0,8] the first array access of the call, [x[n][0]] or
    [x[0][n]], is out of range and the call has no defined result;
    with an index in [0,8] on a 9x9 grid the call returns and every cell
    it visits lies in [0,8] x [0,8]. *)
Theorem check_row_col_bounds (x : grid) (n : Z) :
  (¬ (0 ≤ n < 9) →
   check_row x n = Undefined n 0 ∧ check_col x n = Undefined 0 n)
  ∧
  (grid_wf x → 0 ≤ n < 9 →
   (∃ b t, check_row x n = Val b t
         ∧ Forall (λ p, 0 ≤ p.1 < 9 ∧ 0 ≤ p.2 < 9) (visits t))
   ∧
   (∃ b t, check_col x n = Val b t
         ∧ Forall (λ p, 0 ≤ p.1 < 9 ∧ 0 ≤ p.2 < 9) (visits t))).
Proof.
  split.
  - intros Hn. rewrite check_row_cells, check_col_cells. split.
    + apply (scan_cells_first_undefined x (n, 0)). simpl. lia.
    + apply (scan_cells_first_undefined x (0, n)). simpl. lia.
  - intros Hx Hn. split.
    + destruct (scan_cells_run x (row_cells n) ∅ (row_cells_ok x n Hx Hn))
        as (t & Ht & _).
      rewrite check_row_cells. eexists _, t. split; [done|].
      by eapply scan_cells_in_bounds.
    + destruct (scan_cells_run x (col_cells n) ∅ (col_cells_ok x n Hx Hn))
        as (t & Ht & _).
      rewrite check_col_cells. eexists _, t. split; [done|].
      by eapply scan_cells_in_bounds.
Qed.

(** C9. The outcome of [check_row] (result, text written, cells visited)
    is the same on two grids that agree on the cells of row [n], and the
    outcome of [check_col] the same on two grids that agree on the cells
    of column [n]. *)
Theorem check_row_col_depend_on_unit_only (x y : grid) (n : Z) :
  (agree_on x y (row_cells n) → check_row x n = check_row y n)
  ∧
  (agree_on x y (col_cells n) → check_col x n = check_col y n).
Proof.
  rewrite !check_row_cells, !check_col_cells.
  split; apply scan_cells_agree.
Qed.

(** ** The box checker *)

Lemma for_each_fmap {I J S : Type} (g : I → J) (body : J → S → outcome S)
    (l : list I) (s : S) :
  for_each body (g <$> l) s = for_each (λ i, body (g i)) l s.
Proof.
  revert s. induction l as [|i l IH]; intros s; [done|].
  simpl. destruct (body (g i) s) as [s' t| |]; simpl; [|done..]. by rewrite IH.
Qed.

(** Two nested loops are one loop over the pairs of indices, the outer
    index varying slowest. *)
Lemma for_each_nested {S : Type} (body : Z → Z → S → outcome S) (rs cs : list Z) (s : S) :
  for_each (λ r, for_each (body r) cs) rs s
  = for_each (λ p, body p.1 p.2) (r ← rs; pair r <$> cs) s.
Proof.
  revert s. induction rs as [|r rs IH]; intros s; [done|].
  change (r :: rs) with ([r] ++ rs) at 2. rewrite bind_app, for_each_app.
  simpl. rewrite app_nil_r, for_each_fmap. simpl.
  destruct (for_each (body r) cs s) as [s' t| |]; simpl; [|done..].
  by rewrite IH.
Qed.

Lemma concat_text_app (l1 l2 : list string) :
  concat_text (l1 ++ l2) = String.append (concat_text l1) (concat_text l2).
Proof.
  induction l1 as [|s l1 IH]; simpl; [done|]. by rewrite IH, text_app_assoc.
Qed.

Lemma box_scan_flat (x : grid) (boxNum : Z) (num : gset Z) :
  box_scan x boxNum num = for_each (λ p, box_cell x boxNum p.1 p.2) all_cells num.
Proof. apply for_each_nested. Qed.

Lemma box_cell_Some (x : grid) (boxNum r c v : Z) (num : gset Z) :
  cell x r c = Some v →
  box_cell x boxNum r c num
  = if v =? 0 then Val num [Visit r c]
    else if box_of r c =? boxNum
         then if decide (v ∈ num)
              then Val num [Visit r c; Print "dupe in box-"; Print (show_int boxNum);
                            Print nl; Print (String.append tab "dupe for number: ");
                            Print (show_int v); Print nl]
              else Val ({[v]} ∪ num) [Visit r c; Insert v]
         else Val num [Visit r c].
Proof.
  intros Hv. unfold box_cell, visit. rewrite Hv. simpl.
  destruct (v =? 0); [done|]. destruct (box_of r c =? boxNum); [|done].
  by destruct (decide (v ∈ num)).
Qed.

(** One pass over cells that exist: every cell is visited, and the text
    is one diagnostic for each duplicate among the values of the cells of
    box [boxNum]. *)
Lemma box_cells_run (x : grid) (boxNum : Z) (cells : list (Z * Z)) (num : gset Z) :
  cells_ok x cells →
  ∃ num' t,
    for_each (λ p, box_cell x boxNum p.1 p.2) cells num = Val num' t
    ∧ stdout t = concat_text (box_diag <$> (pair boxNum <$>
        dups (unit_vals x (filter (λ p, box_of p.1 p.2 = boxNum) cells)) num))
    ∧ visits t = cells
    ∧ Forall (λ v, v ≠ 0) (inserts t)
    ∧ clears t = O.
Proof.
  intros Hok. revert num. induction Hok as [|p cells [v Hv] _ IH]; intros num.
  { by exists num, []. }
  simpl. rewrite (box_cell_Some _ _ _ _ _ _ Hv).
  rewrite filter_cons.
  destruct (Z.eqb_spec v 0) as [->|Hv0].
  - simpl. destruct (IH num) as (num' & t & -> & Hout & Hvis & Hins & Hcl).
    exists num', (Visit p.1 p.2 :: t). simpl. rewrite Hvis.
    split_and!; [done| |by destruct p|done..].
    rewrite Hout. destruct (decide (box_of p.1 p.2 = boxNum)); [|done].
    by rewrite (unit_vals_cons _ _ _ _ Hv).
  - destruct (Z.eqb_spec (box_of p.1 p.2) boxNum) as [Hb|Hb].
    + rewrite (decide_True (P:=box_of p.1 p.2 = boxNum)) by done. rewrite (unit_vals_cons _ _ _ _ Hv). simpl.
      rewrite (proj2 (Z.eqb_neq v 0) Hv0).
      destruct (decide (v ∈ num)) as [Hin|Hin]; simpl.
      * destruct (IH num) as (num' & t & -> & Hout & Hvis & Hins & Hcl).
        eexists num', _. split; [reflexivity|]. simpl. rewrite Hvis, Hout.
        split_and!; [|by destruct p|done..].
        unfold box_diag. simpl. by rewrite !text_app_assoc.
      * destruct (IH ({[v]} ∪ num)) as (num' & t & -> & Hout & Hvis & Hins & Hcl).
        eexists num', _. split; [reflexivity|]. simpl. rewrite Hvis, Hout.
        split_and!; [done|by destruct p|by constructor|done].
    + rewrite (decide_False (P:=box_of p.1 p.2 = boxNum)) by done. simpl.
      destruct (IH num) as (num' & t & -> & Hout & Hvis & Hins & Hcl).
      exists num', (Visit p.1 p.2 :: t). simpl. rewrite Hvis.
      split_and!; [done|done|by destruct p|done..].
Qed.

(** The duplicates of the boxes [b], [b+1], ..., each from an empty set. *)
Lemma box_while_run (x : grid) (n fuel : nat) (boxNum : Z) :
  grid_wf x → boxNum = 9 - Z.of_nat n → (n ≤ fuel)%nat →
  ∃ t, box_while fuel x boxNum ∅ = Val true t
     ∧ stdout t = concat_text (box_diag <$>
         (b ← seqZ boxNum (Z.of_nat n); pair b <$> dups (unit_vals x (box_cells b)) ∅))
     ∧ visits t = concat (replicate n all_cells)
     ∧ Forall (λ v, v ≠ 0) (inserts t)
     ∧ clears t = n.
Proof.
  intros Hx. revert fuel boxNum. induction n as [|n IH]; intros fuel boxNum Hb Hfuel.
  { exists []. replace boxNum with 9 by lia. by destruct fuel. }
  destruct fuel as [|fuel]; [lia|]. simpl.
  rewrite (proj2 (Z.eqb_neq boxNum 9)) by lia.
  rewrite box_scan_flat.
  destruct (box_cells_run x boxNum all_cells ∅ (all_cells_ok x Hx))
    as (num' & t1 & -> & Hout1 & Hvis1 & Hins1 & Hcl1).
  simpl. destruct (IH fuel (boxNum + 1)) as (t2 & -> & Hout2 & Hvis2 & Hins2 & Hcl2);
    [lia|lia|].
  eexists. split; [reflexivity|].
  rewrite stdout_app, visits_app, inserts_app, clears_app. simpl.
  rewrite Hout1, Hout2, Hvis1, Hvis2, Hcl1, Hcl2.
  split_and!; [|done|by apply Forall_app|done].
  rewrite (seqZ_cons boxNum) by lia. rewrite bind_cons, fmap_app, concat_text_app.
  by replace (Z.succ boxNum) with (boxNum + 1) by lia;
     replace (Z.pred (Z.of_nat (S n))) with (Z.of_nat n) by lia.
Qed.

Lemma check_box_run (x : grid) :
  grid_wf x →
  ∃ t, check_box x = Val true t
     ∧ stdout t = concat_text (box_diag <$> box_dups x)
     ∧ visits t = concat (replicate 9 all_cells)
     ∧ Forall (λ v, v ≠ 0) (inserts t)
     ∧ clears t = 9%nat.
Proof. intros Hx. by apply (box_while_run x 9 9 0). Qed.

(** ** Counting duplicates *)

Lemma occurrences_nil {A : Type} `{EqDecision A} (v : A) : occurrences v [] = O.
Proof. reflexivity. Qed.

Lemma occurrences_cons {A : Type} `{EqDecision A} (v w : A) (l : list A) :
  occurrences v (w :: l) = ((if decide (w = v) then 1 else 0) + occurrences v l)%nat.
Proof. unfold occurrences. rewrite filter_cons. by destruct (decide (w = v)). Qed.

Lemma occurrences_app {A : Type} `{EqDecision A} (v : A) (l1 l2 : list A) :
  occurrences v (l1 ++ l2) = (occurrences v l1 + occurrences v l2)%nat.
Proof. unfold occurrences. by rewrite filter_app, length_app. Qed.

Lemma occurrences_pos {A : Type} `{EqDecision A} (v : A) (l : list A) :
  v ∈ l ↔ (0 < occurrences v l)%nat.
Proof.
  induction l as [|w l IH]; [rewrite elem_of_nil, occurrences_nil; lia|].
  rewrite elem_of_cons, occurrences_cons, IH.
  destruct (decide (w = v)) as [->|Hne].
  - split; [lia|by left].
  - split; [intros [?|?]; [done|lia]|intros ?; right; lia].
Qed.

Lemma occurrences_lookup {A : Type} `{EqDecision A} (v : A) (l : list A) :
  (2 ≤ occurrences v l)%nat → ∃ i j, i ≠ j ∧ l !! i = Some v ∧ l !! j = Some v.
Proof.
  induction l as [|w l IH]; [rewrite occurrences_nil; lia|].
  rewrite occurrences_cons. destruct (decide (w = v)) as [->|Hne].
  - intros Hocc. assert (v ∈ l) as [j Hj]%list_elem_of_lookup
      by (apply occurrences_pos; lia).
    by exists O, (S j).
  - intros (i & j & Hij & Hi & Hj)%IH. exists (S i), (S j). split; [lia|done].
Qed.

(** A value is reported once for each occurrence after its first one in
    the list (every occurrence, if it had been seen before the list); a
    zero is never reported. *)
Lemma dups_occurrences (l : list Z) (num : gset Z) (v : Z) :
  occurrences v (dups l num)
  = if decide (v = 0) then O
    else if decide (v ∈ num) then occurrences v l
         else pred (occurrences v l).
Proof.
  revert num. induction l as [|w l IH]; intros num; simpl.
  { rewrite occurrences_nil. by repeat case_decide. }
  rewrite (occurrences_cons v w l).
  destruct (Z.eqb_spec w 0) as [->|Hw].
  - rewrite IH. repeat case_decide; try done; congruence.
  - destruct (decide (w ∈ num)) as [Hin|Hin].
    + rewrite occurrences_cons, IH. repeat case_decide; try done; congruence.
    + rewrite IH. destruct (decide (v = 0)); [done|].
      destruct (decide (w = v)) as [->|Hne].
      * rewrite decide_True by (by apply elem_of_union_l, elem_of_singleton).
        by rewrite decide_False by done.
      * destruct (decide (v ∈ num)).
        -- by rewrite decide_True by (by apply elem_of_union_r).
        -- rewrite decide_False; [done|].
           intros [Hv%elem_of_singleton|Hv]%elem_of_union; done.
Qed.

Lemma occurrences_pair_bind (bs : list Z) (f : Z → list Z) (b v : Z) :
  occurrences (b, v) (b' ← bs; pair b' <$> f b')
  = (occurrences b bs * occurrences v (f b))%nat.
Proof.
  assert (∀ b' l, occurrences (b, v) (pair b' <$> l)
                  = if decide (b' = b) then occurrences v l else O) as Hfmap.
  { intros b' l. induction l as [|w l IH]; [by case_decide|].
    rewrite fmap_cons, !occurrences_cons, IH.
    repeat case_decide; simplify_eq; done. }
  induction bs as [|b' bs IH]; [done|].
  rewrite bind_cons, occurrences_app, IH, Hfmap, occurrences_cons.
  case_decide; subst; lia.
Qed.

Lemma occurrences_idx9 (b : Z) : 0 ≤ b < 9 → occurrences b idx9 = 1%nat.
Proof.
  intros Hb.
  assert (b = 0 ∨ b = 1 ∨ b = 2 ∨ b = 3 ∨ b = 4 ∨ b = 5 ∨ b = 6 ∨ b = 7 ∨ b = 8)
    as Hcases by lia.
  repeat (destruct Hcases as [->|Hcases]; [reflexivity|]). by subst.
Qed.

Lemma box_dups_occurrences (x : grid) (b v : Z) :
  0 ≤ b < 9 →
  occurrences (b, v) (box_dups x)
  = if decide (v = 0) then O else pred (occurrences v (unit_vals x (box_cells b))).
Proof.
  intros Hb. unfold box_dups.
  rewrite (occurrences_pair_bind idx9 (λ b, dups (unit_vals x (box_cells b)) ∅)).
  rewrite occurrences_idx9, dups_occurrences by done.
  rewrite Nat.mul_1_l. case_decide; [done|].
  by rewrite decide_False by apply not_elem_of_empty.
Qed.

Lemma box_dups_box (x : grid) (b v : Z) :
  (b, v) ∈ box_dups x → 0 ≤ b < 9 ∧ v ∈ dups (unit_vals x (box_cells b)) ∅.
Proof.
  unfold box_dups. rewrite list_elem_of_bind. intros (b' & Hin & Hb').
  apply list_elem_of_fmap in Hin as (w & [= -> ->] & Hw).
  split; [by apply elem_of_idx9|done].
Qed.

(** C2. On every 9x9 grid [check_box] returns true.  Its text is one
    diagnostic (the box index, then the value) for each duplicate, box by
    box; the seen set is cleared nine times, once after each box, so that
    a non-zero value with [m] occurrences in a box is reported [m - 1]
    times for that box, whatever the other boxes hold, and a zero never. *)
Theorem check_box_reports_and_returns_true (x : grid) :
  grid_wf x →
  ∃ t, check_box x = Val true t
     ∧ stdout t = concat_text (box_diag <$> box_dups x)
     ∧ clears t = 9%nat
     ∧ (∀ b v, (b, v) ∈ box_dups x → 0 ≤ b < 9)
     ∧ (∀ b v, 0 ≤ b < 9 →
          occurrences (b, v) (box_dups x)
          = if decide (v = 0) then O
            else pred (occurrences v (unit_vals x (box_cells b)))).
Proof.
  intros Hx. destruct (check_box_run x Hx) as (t & Ht & Hout & _ & _ & Hcl).
  exists t. split_and!; [done..| |].
  - intros b v Hin. by apply box_dups_box in Hin as [? _].
  - intros b v Hb. by apply box_dups_occurrences.
Qed.

(** C3. In a 9x9 grid, when every non-zero value of row [n] occurs at most
    once, [check_row] returns true and writes nothing; the same for
    column [n] and [check_col]; and when every non-zero value of box [n]
    occurs at most once, [check_box] returns true and none of the
    diagnostics it writes is for box [n]. *)
Theorem unique_unit_passes (x : grid) (n : Z) :
  grid_wf x → 0 ≤ n < 9 →
  (unit_unique (unit_vals x (row_cells n)) →
   ∃ t, check_row x n = Val true t ∧ stdout t = EmptyString)
  ∧
  (unit_unique (unit_vals x (col_cells n)) →
   ∃ t, check_col x n = Val true t ∧ stdout t = EmptyString)
  ∧
  (unit_unique (unit_vals x (box_cells n)) →
   ∃ t, check_box x = Val true t
      ∧ stdout t = concat_text (box_diag <$> box_dups x)
      ∧ ∀ v, (n, v) ∉ box_dups x).
Proof.
  intros Hx Hn. split_and!.
  - intros Hu%unit_unique_index.
    destruct (scan_cells_run x (row_cells n) ∅ (row_cells_ok x n Hx Hn))
      as (t & Ht & Hout & _).
    rewrite Hu in Ht, Hout. rewrite check_row_cells. by exists t.
  - intros Hu%unit_unique_index.
    destruct (scan_cells_run x (col_cells n) ∅ (col_cells_ok x n Hx Hn))
      as (t & Ht & Hout & _).
    rewrite Hu in Ht, Hout. rewrite check_col_cells. by exists t.
  - intros Hu%unit_unique_index%dup_index_dups.
    destruct (check_box_run x Hx) as (t & Ht & Hout & _).
    exists t. split_and!; [done..|].
    intros v [_ Hin]%box_dups_box. rewrite Hu in Hin. by apply elem_of_nil in Hin.
Qed.

Lemma dup_at_has_dup (l : list Z) (k : nat) : dup_at l k → has_dup l.
Proof. intros (v & i & Hk & Hv & Hi & Hl). exists i, k, v. split; [lia|done]. Qed.

Lemma scan_result_zero_free (cells : list (Z * Z)) (l : list Z) (o : outcome bool) :
  scan_result cells (dup_index l ∅) o →
  ∃ b t, o = Val b t
       ∧ (0 ∉ inserts t)
       ∧ (b = false ∨ stdout t ≠ EmptyString → has_dup l).
Proof.
  intros (t & -> & Hout & _ & Hins & _). eexists _, t. split_and!; [done| |].
  - intros Hin. by destruct (proj1 (Forall_forall _ _) Hins 0 Hin).
  - destruct (dup_index l ∅) as [k|] eqn:Hk.
    + intros _. eapply dup_at_has_dup, dup_index_first, Hk.
    + rewrite Hout. by intros [|].
Qed.

(** C4. A cell holding 0 never counts as a duplicate.  In a 9x9 grid, for
    a row or column index [n] in [0,8]: [check_row] and [check_col] never
    insert 0 in the seen set, and return false or write a diagnostic only
    when the unit holds two equal non-zero values; [check_box] never
    inserts 0 either, and each diagnostic it writes is for a non-zero
    value that its box holds at two positions. *)
Theorem zeros_never_count (x : grid) (n : Z) :
  grid_wf x → 0 ≤ n < 9 →
  (∃ b t, check_row x n = Val b t
        ∧ (0 ∉ inserts t)
        ∧ (b = false ∨ stdout t ≠ EmptyString → has_dup (unit_vals x (row_cells n))))
  ∧
  (∃ b t, check_col x n = Val b t
        ∧ (0 ∉ inserts t)
        ∧ (b = false ∨ stdout t ≠ EmptyString → has_dup (unit_vals x (col_cells n))))
  ∧
  (∃ t, check_box x = Val true t
      ∧ (0 ∉ inserts t)
      ∧ stdout t = concat_text (box_diag <$> box_dups x)
      ∧ ∀ b v, (b, v) ∈ box_dups x →
          v ≠ 0 ∧ ∃ i j, i ≠ j ∧ unit_vals x (box_cells b) !! i = Some v
                               ∧ unit_vals x (box_cells b) !! j = Some v).
Proof.
  intros Hx Hn. split_and!.
  - rewrite check_row_cells. eapply scan_result_zero_free, scan_cells_run.
    by apply row_cells_ok.
  - rewrite check_col_cells. eapply scan_result_zero_free, scan_cells_run.
    by apply col_cells_ok.
  - destruct (check_box_run x Hx) as (t & Ht & Hout & _ & Hins & _).
    exists t. split_and!; [done| |done|].
    + intros Hin. by destruct (proj1 (Forall_forall _ _) Hins 0 Hin).
    + intros b v Hin. pose proof (box_dups_box _ _ _ Hin) as [Hb _].
      apply occurrences_pos in Hin. rewrite box_dups_occurrences in Hin by done.
      case_decide; [lia|]. split; [done|]. apply occurrences_lookup. lia.
Qed.

(** ** The number of cell visits *)

Lemma scan_result_visits (cells : list (Z * Z)) (k : option nat) (o : outcome bool) :
  scan_result cells k o →
  ∃ b t, o = Val b t ∧ (length (visits t) ≤ length cells)%nat.
Proof.
  intros (t & -> & _ & Hvis & _). eexists _, t. split; [done|].
  rewrite Hvis. destruct k; [|done]. rewrite length_take. lia.
Qed.

Lemma nine_passes_length : length (concat (replicate 9 all_cells)) = 729%nat.
Proof. reflexivity. Qed.

Lemma nine_passes_distinct : length (remove_dups (concat (replicate 9 all_cells))) = 81%nat.
Proof. vm_compute. reflexivity. Qed.

Lemma nine_passes_each (r c : Z) :
  0 ≤ r < 9 → 0 ≤ c < 9 →
  occurrences (r, c) (concat (replicate 9 all_cells)) = 9%nat.
Proof.
  intros Hr Hc.
  assert (Forall (λ p, occurrences p (concat (replicate 9 all_cells)) = 9%nat) all_cells)
    as Hall by (apply (bool_decide_unpack _); vm_compute; exact I).
  apply (proj1 (Forall_forall _ _) Hall (r, c)). by apply elem_of_all_cells.
Qed.

(** C5. On a 9x9 grid every checker call returns.  [check_row] and
    [check_col], for an index in [0,8], visit at most 9 cells.
    [check_box] makes 729 cell visits, nine passes over the grid, one for
    each box index: each of the 81 cells of the grid is visited 9 times. *)
Theorem checkers_return_after_bounded_visits (x : grid) (n : Z) :
  grid_wf x → 0 ≤ n < 9 →
  (∃ b t, check_row x n = Val b t ∧ (length (visits t) ≤ 9)%nat)
  ∧
  (∃ b t, check_col x n = Val b t ∧ (length (visits t) ≤ 9)%nat)
  ∧
  (∃ t, check_box x = Val true t
      ∧ length (visits t) = 729%nat
      ∧ length (remove_dups (visits t)) = 81%nat
      ∧ ∀ r c, 0 ≤ r < 9 → 0 ≤ c < 9 → occurrences (r, c) (visits t) = 9%nat).
Proof.
  intros Hx Hn. split_and!.
  - rewrite check_row_cells.
    apply (scan_result_visits (row_cells n) _ _ (scan_cells_run x _ ∅ (row_cells_ok x n Hx Hn))).
  - rewrite check_col_cells.
    apply (scan_result_visits (col_cells n) _ _ (scan_cells_run x _ ∅ (col_cells_ok x n Hx Hn))).
  - destruct (check_box_run x Hx) as (t & Ht & _ & Hvis & _).
    exists t. rewrite Hvis.
    split_and!; [done|apply nine_passes_length|apply nine_passes_distinct|].
    apply nine_passes_each.
Qed.

(** ** The boxes *)

Lemma index_cases (i : Z) :
  0 ≤ i < 9 → i = 0 ∨ i = 1 ∨ i = 2 ∨ i = 3 ∨ i = 4 ∨ i = 5 ∨ i = 6 ∨ i = 7 ∨ i = 8.
Proof. lia. Qed.

Ltac index_cases H :=
  apply index_cases in H;
  repeat (destruct H as [->|H]); [..|subst].

(** C6. For a cell [(r,c)] with [r] and [c] in [0,8], the box index
    [r/3*3 + c/3] that [check_box] computes lies in [0,8], and the cell is
    in box [b] exactly when [b] is that index, so in one box only; each
    box [b] in [0,8] is made of exactly 9 cells of the grid, all
    different. *)
Theorem box_index_partition (r c b : Z) :
  0 ≤ r < 9 → 0 ≤ c < 9 → 0 ≤ b < 9 →
  box_of r c = r `quot` 3 * 3 + c `quot` 3
  ∧ 0 ≤ box_of r c ≤ 8
  ∧ ((r, c) ∈ box_cells b ↔ b = box_of r c)
  ∧ length (box_cells b) = 9%nat
  ∧ NoDup (box_cells b)
  ∧ box_cells b ⊆ all_cells.
Proof.
  intros Hr Hc Hb.
  split; [reflexivity|].
  split; [index_cases Hr; index_cases Hc; by vm_compute|].
  split.
  { unfold box_cells. rewrite list_elem_of_filter, elem_of_all_cells. simpl.
    split; [by intros [-> _]|by intros ->]. }
  split; [index_cases Hb; reflexivity|].
  split.
  { apply NoDup_filter. apply (bool_decide_unpack _). vm_compute. exact I. }
  intros p [_ Hp]%list_elem_of_filter. done.
Qed.

(** ** The printer *)

Lemma count_char_app (c : ascii) (s1 s2 : string) :
  count_char c (String.append s1 s2) = (count_char c s1 + count_char c s2)%nat.
Proof.
  induction s1 as [|d s1 IH]; [done|].
  rewrite text_app_cons. simpl. rewrite IH. lia.
Qed.

(** The decimal text of an [int] holds digits and a minus sign only: no
    bar and no newline. *)
Lemma show_uint_no_bar (d : Decimal.uint) :
  count_char "|" (NilEmpty.string_of_uint d) = O.
Proof. induction d; simpl; done. Qed.

Lemma show_uint_no_newline (d : Decimal.uint) :
  count_char "010" (NilEmpty.string_of_uint d) = O.
Proof. induction d; simpl; done. Qed.

Lemma show_int_no_bar (v : Z) : count_char "|" (show_int v) = O.
Proof. unfold show_int. destruct v; simpl; auto using show_uint_no_bar. Qed.

Lemma show_int_no_newline (v : Z) : count_char "010" (show_int v) = O.
Proof. unfold show_int. destruct v; simpl; auto using show_uint_no_newline. Qed.

Lemma lines_app_nl (l rest : string) :
  count_char "010" l = O →
  lines (String.append l (String.append nl rest)) = l :: lines rest.
Proof.
  induction l as [|c l IH]; [done|].
  rewrite text_app_cons. simpl.
  destruct (Ascii.eqb c "010"); [done|]. intros Hl. by rewrite IH.
Qed.

Lemma lines_unlines (ls : list string) :
  Forall (λ l, count_char "010" l = O) ls →
  lines (concat_text ((λ l, String.append l nl) <$> ls)) = ls.
Proof.
  induction 1 as [|l ls Hl _ IH]; [done|].
  rewrite fmap_cons. simpl. by rewrite text_app_assoc, lines_app_nl, IH.
Qed.

Lemma content_line_bars (row : list Z) :
  length row = 9%nat → count_char "|" (spec_content_line row) = 4%nat.
Proof.
  intros Hlen. do 10 (destruct row as [|? row]; try discriminate Hlen).
  unfold spec_content_line, spec_cell_text. simpl.
  rewrite !count_char_app, !show_int_no_bar. reflexivity.
Qed.

Lemma content_line_no_newline (row : list Z) :
  length row = 9%nat → count_char "010" (spec_content_line row) = O.
Proof.
  intros Hlen. do 10 (destruct row as [|? row]; try discriminate Hlen).
  unfold spec_content_line, spec_cell_text. simpl.
  rewrite !count_char_app, !show_int_no_newline. reflexivity.
Qed.

Lemma print_row_run (x : grid) (rows : Z) (row : list Z) :
  0 ≤ rows < 9 → x !! Z.to_nat rows = Some row → length row = 9%nat →
  ∃ t, print_row x rows tt = Val tt t
     ∧ stdout t = String.append
         (if rows `rem` 3 =? 0 then String.append dashes nl else EmptyString)
         (String.append (spec_content_line row) nl)
     ∧ visits t = row_cells rows.
Proof.
  intros Hr Hrow Hlen. do 10 (destruct row as [|? row]; try discriminate Hlen).
  assert (∀ c, 0 ≤ c < 9 →
            visit x rows c
            = match [z; z0; z1; z2; z3; z4; z5; z6; z7] !! Z.to_nat c with
              | Some v => Val v [Visit rows c]
              | None => Undefined rows c
              end) as Hcell.
  { intros c Hc. unfold visit, cell.
    rewrite (proj2 (in_bounds_spec rows) Hr), (proj2 (in_bounds_spec c) Hc).
    simpl. by rewrite Hrow. }
  unfold print_row, print_cell. rewrite idx9_eq. simpl for_each.
  rewrite !Hcell by lia. simpl.
  unfold spec_content_line, spec_cell_text.
  destruct (rows `rem` 3 =? 0); simpl;
    (eexists; split_and!; [reflexivity| |reflexivity]);
    simpl; rewrite ?text_app_assoc; reflexivity.
Qed.

(** C8. On a 9x9 grid [print_board] writes 13 lines, each ended by a
    newline: a line of 25 dashes before rows 0, 3 and 6 and after row 8
    (4 in all), and between them one line for each of the 9 rows, in
    order; the line of a row holds exactly 4 bars (one before each of the
    columns 0, 3 and 6, one closing the line), a dash line holds none. *)
Theorem print_board_layout (x : grid) :
  grid_wf x →
  ∃ t r0 r1 r2 r3 r4 r5 r6 r7 r8,
    x = [r0; r1; r2; r3; r4; r5; r6; r7; r8]
    ∧ print_board x = Val tt t
    ∧ lines (stdout t)
      = [ dashes; spec_content_line r0; spec_content_line r1; spec_content_line r2;
          dashes; spec_content_line r3; spec_content_line r4; spec_content_line r5;
          dashes; spec_content_line r6; spec_content_line r7; spec_content_line r8;
          dashes ]
    ∧ stdout t = concat_text ((λ l, String.append l nl) <$> lines (stdout t))
    ∧ Forall (λ r, count_char "|" (spec_content_line r) = 4%nat) x
    ∧ count_char "-" dashes = 25%nat
    ∧ String.length dashes = 25%nat
    ∧ count_char "|" dashes = O.
Proof.
  intros [Hlen Hrows].
  do 10 (destruct x as [|? x]; try discriminate Hlen).
  assert (Forall (λ r, count_char "010" (spec_content_line r) = O)
            [l; l0; l1; l2; l3; l4; l5; l6; l7]) as Hnl
    by (eapply Forall_impl; [exact Hrows|apply content_line_no_newline]).
  assert (Forall (λ r, count_char "|" (spec_content_line r) = 4%nat)
            [l; l0; l1; l2; l3; l4; l5; l6; l7]) as Hbars
    by (eapply Forall_impl; [exact Hrows|apply content_line_bars]).
  set (x := [l; l0; l1; l2; l3; l4; l5; l6; l7]) in *.
  assert (∀ i r, 0 ≤ i < 9 → x !! Z.to_nat i = Some r →
            ∃ t, print_row x i tt = Val tt t
               ∧ stdout t = String.append
                   (if i `rem` 3 =? 0 then String.append dashes nl else EmptyString)
                   (String.append (spec_content_line r) nl)) as Hrow.
  { intros i r Hi Hr.
    destruct (print_row_run x i r Hi Hr) as (t & Ht & Hout & _); [|by exists t].
    by apply (Forall_lookup_1 _ _ _ _ Hrows Hr). }
  destruct (Hrow 0 l) as (t0 & E0 & O0); [lia|done|].
  destruct (Hrow 1 l0) as (t1 & E1 & O1); [lia|done|].
  destruct (Hrow 2 l1) as (t2 & E2 & O2); [lia|done|].
  destruct (Hrow 3 l2) as (t3 & E3 & O3); [lia|done|].
  destruct (Hrow 4 l3) as (t4 & E4 & O4); [lia|done|].
  destruct (Hrow 5 l4) as (t5 & E5 & O5); [lia|done|].
  destruct (Hrow 6 l5) as (t6 & E6 & O6); [lia|done|].
  destruct (Hrow 7 l6) as (t7 & E7 & O7); [lia|done|].
  destruct (Hrow 8 l7) as (t8 & E8 & O8); [lia|done|].
  clear Hrow.
  assert (∃ t, print_board x = Val tt t
             ∧ stdout t = concat_text ((λ l, String.append l nl) <$>
                 [ dashes; spec_content_line l; spec_content_line l0; spec_content_line l1;
                   dashes; spec_content_line l2; spec_content_line l3; spec_content_line l4;
                   dashes; spec_content_line l5; spec_content_line l6; spec_content_line l7;
                   dashes ])) as (t & Ht & Hout).
  { unfold print_board. rewrite idx9_eq. simpl for_each.
    rewrite E0. simpl. rewrite E1. simpl. rewrite E2. simpl. rewrite E3. simpl.
    rewrite E4. simpl. rewrite E5. simpl. rewrite E6. simpl. rewrite E7. simpl.
    rewrite E8. simpl. eexists. split; [reflexivity|].
    rewrite !stdout_app, O0, O1, O2, O3, O4, O5, O6, O7, O8.
    simpl. rewrite !text_app_assoc. reflexivity. }
  assert (lines (stdout t) =
            [ dashes; spec_content_line l; spec_content_line l0; spec_content_line l1;
              dashes; spec_content_line l2; spec_content_line l3; spec_content_line l4;
              dashes; spec_content_line l5; spec_content_line l6; spec_content_line l7;
              dashes ]) as Hlines.
  { rewrite Hout. apply lines_unlines. unfold x in Hnl. clear Hbars Hrows.
    repeat match goal with
           | H : Forall _ (_ :: _) |- _ => apply Forall_cons_1 in H as [? H]
           end.
    repeat (constructor; [done|]). constructor. }
  exists t, l, l0, l1, l2, l3, l4, l5, l6, l7.
  split; [done|]. split; [done|]. split; [done|]. split; [by rewrite Hlines|].
  split; [done|]. split; [reflexivity|]. split; reflexivity.
Qed.

(** C10. The printer of [src/main.cpp] and the printer of the checker
    program are the same function: on every grid they have the same
    outcome, text and visited cells included. *)
Theorem print_board_variants_agree (x : grid) :
  MainCpp.print_board x = print_board x.
Proof. reflexivity. Qed.

(** ** The checks at work on the boards of the programs *)

(** Row 0 of the board is [1 2 3 4 5 6 7 8 1]: the scan stops at column
    8, the second 1. *)
Example check_row_board_0 :
  ∃ t, check_row board 0 = Val false t
     ∧ stdout t = String.append "dupe" nl
     ∧ last (visits t) = Some (0, 8)
     ∧ inserts t = [1; 2; 3; 4; 5; 6; 7; 8].
Proof. eexists. split; [vm_compute; reflexivity|]. by vm_compute. Qed.

Example check_col_board_0 :
  ∃ t, check_col board 0 = Val false t
     ∧ stdout t = String.append "dupe" nl
     ∧ last (visits t) = Some (8, 0).
Proof. eexists. split; [vm_compute; reflexivity|]. by vm_compute. Qed.

(** The boxes 0, 2, 4 and 6 of the board each hold a value three times or
    two values twice: two diagnostics each, and still [true]. *)
Example check_box_board :
  box_dups board = [(0, 2); (0, 3); (2, 1); (2, 1); (4, 1); (4, 1); (6, 1); (6, 1)]
  ∧ ∃ t, check_box board = Val true t
       ∧ length (lines (stdout t)) = 16%nat
       ∧ take 2 (lines (stdout t))
         = ["dupe in box-0"; String.append tab "dupe for number: 2"]%string.
Proof.
  split; [by vm_compute|]. eexists. split; [vm_compute; reflexivity|].
  by vm_compute.
Qed.

Example check_row_board_out_of_range :
  check_row board 9 = Undefined 9 0 ∧ check_col board (-1) = Undefined 0 (-1).
Proof. by vm_compute. Qed.

Lemma index_None_unique (l : list Z) : dup_index l ∅ = None → unit_unique l.
Proof.
  intros Hnone i j v Hi Hj Hv. pose proof (dup_index_spec l ∅) as Hs.
  rewrite Hnone in Hs. destruct (lt_eq_lt_dec i j) as [[Hlt| ->]|Hlt]; [|done|].
  - destruct (Hs j). exists v. eauto 6.
  - destruct (Hs i). exists v. eauto 6.
Qed.

Ltac grid_shape := split; [reflexivity|repeat constructor].

Lemma check_row_col_first_duplicate_witness :
  (∃ k t, first_dup (unit_vals board (row_cells 0)) k
        ∧ check_row board 0 = Val false t
        ∧ stdout t = String.append "dupe" nl
        ∧ visits t = take (S k) (row_cells 0))
  ∧
  (∃ k t, first_dup (unit_vals board (col_cells 0)) k
        ∧ check_col board 0 = Val false t
        ∧ stdout t = String.append "dupe" nl
        ∧ visits t = take (S k) (col_cells 0)).
Proof.
  destruct (check_row_col_first_duplicate board 0) as [Hrow Hcol];
    [grid_shape|lia|].
  split.
  - apply Hrow. exists 0%nat, 8%nat, 1. split_and!; [lia|reflexivity|reflexivity|lia].
  - apply Hcol. exists 0%nat, 8%nat, 1. split_and!; [lia|reflexivity|reflexivity|lia].
Defined.

Lemma check_box_reports_and_returns_true_witness :
  ∃ t, check_box board = Val true t
     ∧ stdout t = concat_text (box_diag <$> box_dups board)
     ∧ clears t = 9%nat
     ∧ (∀ b v, (b, v) ∈ box_dups board → 0 ≤ b < 9)
     ∧ (∀ b v, 0 ≤ b < 9 →
          occurrences (b, v) (box_dups board)
          = if decide (v = 0) then O
            else pred (occurrences v (unit_vals board (box_cells b)))).
Proof. apply (check_box_reports_and_returns_true board). grid_shape. Defined.

Lemma unique_unit_passes_witness :
  (∃ t, check_row board 1 = Val true t ∧ stdout t = EmptyString)
  ∧
  (∃ t, check_col board 1 = Val true t ∧ stdout t = EmptyString)
  ∧
  (∃ t, check_box board = Val true t
      ∧ stdout t = concat_text (box_diag <$> box_dups board)
      ∧ ∀ v, (1, v) ∉ box_dups board).
Proof.
  destruct (unique_unit_passes board 1) as (Hrow & Hcol & Hbox);
    [grid_shape|lia|].
  split_and!.
  - apply Hrow, index_None_unique. vm_compute. reflexivity.
  - apply Hcol, index_None_unique. vm_compute. reflexivity.
  - apply Hbox, index_None_unique. vm_compute. reflexivity.
Defined.

Lemma zeros_never_count_witness :
  (∃ b t, check_row board_main 0 = Val b t
        ∧ (0 ∉ inserts t)
        ∧ (b = false ∨ stdout t ≠ EmptyString
           → has_dup (unit_vals board_main (row_cells 0))))
  ∧
  (∃ b t, check_col board_main 0 = Val b t
        ∧ (0 ∉ inserts t)
        ∧ (b = false ∨ stdout t ≠ EmptyString
           → has_dup (unit_vals board_main (col_cells 0))))
  ∧
  (∃ t, check_box board_main = Val true t
      ∧ (0 ∉ inserts t)
      ∧ stdout t = concat_text (box_diag <$> box_dups board_main)
      ∧ ∀ b v, (b, v) ∈ box_dups board_main →
          v ≠ 0 ∧ ∃ i j, i ≠ j ∧ unit_vals board_main (box_cells b) !! i = Some v
                               ∧ unit_vals board_main (box_cells b) !! j = Some v).
Proof. apply (zeros_never_count board_main 0); [grid_shape|lia]. Defined.

Lemma checkers_return_after_bounded_visits_witness :
  (∃ b t, check_row board 0 = Val b t ∧ (length (visits t) ≤ 9)%nat)
  ∧
  (∃ b t, check_col board 0 = Val b t ∧ (length (visits t) ≤ 9)%nat)
  ∧
  (∃ t, check_box board = Val true t
      ∧ length (visits t) = 729%nat
      ∧ length (remove_dups (visits t)) = 81%nat
      ∧ ∀ r c, 0 ≤ r < 9 → 0 ≤ c < 9 → occurrences (r, c) (visits t) = 9%nat).
Proof. apply (checkers_return_after_bounded_visits board 0); [grid_shape|lia]. Defined.

(** [check_box] on the board of the program: 729 visits, not 81 or
    fewer. *)
Lemma check_box_visits_exceed_81 :
  ¬ ∃ b t, check_box board = Val b t ∧ (length (visits t) ≤ 81)%nat.
Proof.
  intros (b & t & Ht & Hle).
  destruct (check_box_run board) as (t' & Ht' & _ & Hvis & _); [grid_shape|].
  rewrite Ht' in Ht. injection Ht as <- <-.
  rewrite Hvis, nine_passes_length in Hle. lia.
Qed.

Lemma box_index_partition_witness :
  box_of 4 7 = 4 `quot` 3 * 3 + 7 `quot` 3
  ∧ 0 ≤ box_of 4 7 ≤ 8
  ∧ ((4, 7) ∈ box_cells 5 ↔ 5 = box_of 4 7)
  ∧ length (box_cells 5) = 9%nat
  ∧ NoDup (box_cells 5)
  ∧ box_cells 5 ⊆ all_cells.
Proof. apply (box_index_partition 4 7 5); lia. Defined.

Lemma check_row_col_bounds_witness :
  (check_row board 9 = Undefined 9 0 ∧ check_col board 9 = Undefined 0 9)
  ∧
  ((∃ b t, check_row board 0 = Val b t
         ∧ Forall (λ p, 0 ≤ p.1 < 9 ∧ 0 ≤ p.2 < 9) (visits t))
   ∧
   (∃ b t, check_col board 0 = Val b t
         ∧ Forall (λ p, 0 ≤ p.1 < 9 ∧ 0 ≤ p.2 < 9) (visits t))).
Proof.
  split.
  - apply (proj1 (check_row_col_bounds board 9)). lia.
  - apply (proj2 (check_row_col_bounds board 0)); [grid_shape|lia].
Defined.

Lemma print_board_layout_witness :
  ∃ t r0 r1 r2 r3 r4 r5 r6 r7 r8,
    board = [r0; r1; r2; r3; r4; r5; r6; r7; r8]
    ∧ print_board board = Val tt t
    ∧ lines (stdout t)
      = [ dashes; spec_content_line r0; spec_content_line r1; spec_content_line r2;
          dashes; spec_content_line r3; spec_content_line r4; spec_content_line r5;
          dashes; spec_content_line r6; spec_content_line r7; spec_content_line r8;
          dashes ]
    ∧ stdout t = concat_text ((λ l, String.append l nl) <$> lines (stdout t))
    ∧ Forall (λ r, count_char "|" (spec_content_line r) = 4%nat) board
    ∧ count_char "-" dashes = 25%nat
    ∧ String.length dashes = 25%nat
    ∧ count_char "|" dashes = O.
Proof. apply (print_board_layout board). grid_shape. Defined.

Lemma check_row_col_depend_on_unit_only_witness :
  check_row board 0 = check_row board_alt 0
  ∧ check_col board 0 = check_col board_alt 0.
Proof.
  destruct (check_row_col_depend_on_unit_only board board_alt 0) as [Hrow Hcol].
  split.
  - apply Hrow. vm_compute. repeat constructor.
  - apply Hcol. vm_compute. repeat constructor.
Defined.

(** * Further properties *)

(** ** The box printer *)

Lemma show_uint_no_space (d : Decimal.uint) :
  count_char " " (NilEmpty.string_of_uint d) = O.
Proof. induction d; simpl; done. Qed.

Lemma show_int_no_space (v : Z) : count_char " " (show_int v) = O.
Proof. unfold show_int. destruct v; simpl; auto using show_uint_no_space. Qed.

Lemma box_of_range (p : Z * Z) : p ∈ all_cells → 0 ≤ box_of p.1 p.2 < 9.
Proof.
  intros [Hr Hc]%elem_of_all_cells. destruct p as [r c]. simpl in *.
  index_cases Hr; index_cases Hc; by vm_compute.
Qed.

Lemma box_cells_out_of_range (boxNum : Z) : ¬ (0 ≤ boxNum < 9) → box_cells boxNum = [].
Proof.
  intros Hb. destruct (box_cells boxNum) as [|p l] eqn:E; [done|].
  assert (p ∈ box_cells boxNum) as [Heq Hp%box_of_range]%list_elem_of_filter
    by (rewrite E; left).
  destruct Hb. by rewrite <-Heq.
Qed.

Lemma print_box_flat (x : grid) (boxNum : Z) :
  print_box x boxNum = for_each (λ p, print_box_cell x boxNum p.1 p.2) all_cells tt.
Proof. apply for_each_nested. Qed.

Lemma print_box_cell_eq (x : grid) (boxNum i j : Z) :
  print_box_cell x boxNum i j tt
  = if decide (box_of i j = boxNum)
    then match cell x i j with
         | Some v => Val tt [Visit i j; Print (show_int v)]
         | None => Undefined i j
         end
    else Val tt [].
Proof.
  unfold print_box_cell, visit.
  destruct (Z.eqb_spec (box_of i j) boxNum); case_decide; try done.
  by destruct (cell x i j).
Qed.

(** One pass of [print_box]: only the cells of the box are read, and they
    have to exist. *)
Lemma print_box_cells_run (x : grid) (boxNum : Z) (cells : list (Z * Z)) :
  cells_ok x (filter (λ p, box_of p.1 p.2 = boxNum) cells) →
  for_each (λ p, print_box_cell x boxNum p.1 p.2) cells tt
  = Val tt (print_box_trace x boxNum cells).
Proof.
  unfold print_box_trace. induction cells as [|p cells IH]; [done|].
  rewrite filter_cons. simpl. rewrite print_box_cell_eq.
  destruct (decide (box_of p.1 p.2 = boxNum)) as [Hb|Hb].
  - intros [[v Hv] Hok]%Forall_cons_1. rewrite Hv. simpl.
    rewrite IH by done. simpl. by rewrite Hv.
  - intros Hok. simpl. by rewrite IH.
Qed.

Lemma print_box_trace_stdout (x : grid) (boxNum : Z) (cells : list (Z * Z)) :
  cells_ok x (filter (λ p, box_of p.1 p.2 = boxNum) cells) →
  stdout (print_box_trace x boxNum cells)
  = concat_text (show_int <$> unit_vals x (filter (λ p, box_of p.1 p.2 = boxNum) cells))
  ∧ visits (print_box_trace x boxNum cells)
    = filter (λ p, box_of p.1 p.2 = boxNum) cells.
Proof.
  unfold print_box_trace.
  induction 1 as [|p ps [v Hv] _ [IH1 IH2]]; [done|].
  rewrite bind_cons, stdout_app, visits_app, (unit_vals_cons _ _ _ _ Hv), Hv.
  simpl. rewrite IH1, IH2, text_app_nil_r. by destruct p.
Qed.

(** X1. On a 9x9 grid [print_box] returns for every box number; it reads
    exactly the cells of that box, in row-major order, and writes their
    decimal values one after the other with nothing in between and no
    newline. *)
Theorem print_box_writes_the_box (x : grid) (boxNum : Z) :
  grid_wf x →
  ∃ t, print_box x boxNum = Val tt t
     ∧ visits t = box_cells boxNum
     ∧ stdout t = concat_text (show_int <$> unit_vals x (box_cells boxNum))
     ∧ length (unit_vals x (box_cells boxNum)) = length (box_cells boxNum)
     ∧ count_char "010" (stdout t) = O
     ∧ count_char " " (stdout t) = O.
Proof.
  intros Hx.
  assert (cells_ok x (box_cells boxNum)) as Hok.
  { apply Forall_forall. intros p [_ Hp]%list_elem_of_filter.
    by apply (proj1 (Forall_forall _ _) (all_cells_ok x Hx)). }
  destruct (print_box_trace_stdout x boxNum all_cells Hok) as [Hout Hvis].
  exists (print_box_trace x boxNum all_cells).
  rewrite print_box_flat, print_box_cells_run by done.
  split; [done|]. split; [done|]. split; [done|].
  split; [by apply unit_vals_length|].
  rewrite Hout. fold (box_cells boxNum).
  generalize (unit_vals x (box_cells boxNum)). intros l.
  split; (induction l as [|v l IH]; [done|]);
    rewrite fmap_cons; simpl; rewrite count_char_app, IH.
  - by rewrite show_int_no_newline.
  - by rewrite show_int_no_space.
Qed.

(** X2. With a box number outside [0,8] [print_box] reads no cell and
    writes nothing, on any grid: no box number makes the call undefined. *)
Theorem print_box_unknown_box_is_silent (x : grid) (boxNum : Z) :
  ¬ (0 ≤ boxNum < 9) → print_box x boxNum = Val tt [].
Proof.
  intros Hb. pose proof (box_cells_out_of_range boxNum Hb) as Hnil.
  unfold box_cells in Hnil.
  rewrite print_box_flat, print_box_cells_run by (rewrite Hnil; constructor).
  unfold print_box_trace. by rewrite Hnil.
Qed.

Lemma print_box_cells_agree (x y : grid) (boxNum : Z) (cells : list (Z * Z)) :
  agree_on x y (filter (λ p, box_of p.1 p.2 = boxNum) cells) →
  for_each (λ p, print_box_cell x boxNum p.1 p.2) cells tt
  = for_each (λ p, print_box_cell y boxNum p.1 p.2) cells tt.
Proof.
  induction cells as [|p cells IH]; [done|].
  rewrite filter_cons. simpl. rewrite !print_box_cell_eq.
  destruct (decide (box_of p.1 p.2 = boxNum)) as [Hb|Hb].
  - intros [Hp Hag]%Forall_cons_1. rewrite Hp.
    destruct (cell y p.1 p.2); [|done]. simpl. by rewrite IH.
  - intros Hag. simpl. by rewrite IH.
Qed.

(** X3. The outcome of [print_box] is the same on two grids that agree on
    the cells of the box. *)
Theorem print_box_depends_on_box_only (x y : grid) (boxNum : Z) :
  agree_on x y (box_cells boxNum) → print_box x boxNum = print_box y boxNum.
Proof. intros Hag. rewrite !print_box_flat. by apply print_box_cells_agree. Qed.

(** ** The board printer *)

Lemma print_board_run (x : grid) :
  grid_wf x →
  ∃ t, print_board x = Val tt t
     ∧ stdout t = concat_text ((λ l, String.append l nl) <$> board_lines x)
     ∧ visits t = all_cells.
Proof.
  intros [Hlen Hrows].
  do 10 (destruct x as [|? x]; try discriminate Hlen).
  set (x := [l; l0; l1; l2; l3; l4; l5; l6; l7]) in *.
  assert (∀ i r, 0 ≤ i < 9 → x !! Z.to_nat i = Some r →
            ∃ t, print_row x i tt = Val tt t
               ∧ stdout t = String.append
                   (if i `rem` 3 =? 0 then String.append dashes nl else EmptyString)
                   (String.append (spec_content_line r) nl)
               ∧ visits t = row_cells i) as Hrow.
  { intros i r Hi Hr. apply print_row_run; [done..|].
    by apply (Forall_lookup_1 _ _ _ _ Hrows Hr). }
  destruct (Hrow 0 l) as (t0 & E0 & O0 & V0); [lia|done|].
  destruct (Hrow 1 l0) as (t1 & E1 & O1 & V1); [lia|done|].
  destruct (Hrow 2 l1) as (t2 & E2 & O2 & V2); [lia|done|].
  destruct (Hrow 3 l2) as (t3 & E3 & O3 & V3); [lia|done|].
  destruct (Hrow 4 l3) as (t4 & E4 & O4 & V4); [lia|done|].
  destruct (Hrow 5 l4) as (t5 & E5 & O5 & V5); [lia|done|].
  destruct (Hrow 6 l5) as (t6 & E6 & O6 & V6); [lia|done|].
  destruct (Hrow 7 l6) as (t7 & E7 & O7 & V7); [lia|done|].
  destruct (Hrow 8 l7) as (t8 & E8 & O8 & V8); [lia|done|].
  clear Hrow.
  unfold print_board. rewrite idx9_eq. simpl for_each.
  rewrite E0. simpl. rewrite E1. simpl. rewrite E2. simpl. rewrite E3. simpl.
  rewrite E4. simpl. rewrite E5. simpl. rewrite E6. simpl. rewrite E7. simpl.
  rewrite E8. simpl. eexists. split; [reflexivity|]. split.
  - rewrite !stdout_app, O0, O1, O2, O3, O4, O5, O6, O7, O8.
    simpl. rewrite !text_app_assoc. reflexivity.
  - rewrite !visits_app, V0, V1, V2, V3, V4, V5, V6, V7, V8. reflexivity.
Qed.

Lemma board_lines_no_newline (x : grid) :
  grid_wf x → Forall (λ l, count_char "010" l = O) (board_lines x).
Proof.
  intros [Hlen Hrows].
  do 10 (destruct x as [|? x]; try discriminate Hlen).
  assert (Forall (λ r, count_char "010" (spec_content_line r) = O)
            [l; l0; l1; l2; l3; l4; l5; l6; l7]) as Hnl
    by (eapply Forall_impl; [exact Hrows|apply content_line_no_newline]).
  clear Hrows.
  repeat match goal with
         | H : Forall _ (_ :: _) |- _ => apply Forall_cons_1 in H as [? H]
         end.
  unfold board_lines. simpl. repeat (constructor; [done|]). constructor.
Qed.

Lemma print_board_lines (x : grid) (t : trace) :
  grid_wf x → print_board x = Val tt t → lines (stdout t) = board_lines x.
Proof.
  intros Hx Ht. destruct (print_board_run x Hx) as (t' & Ht' & Hout & _).
  rewrite Ht in Ht'. injection Ht' as <-.
  rewrite Hout. by apply lines_unlines, board_lines_no_newline.
Qed.

(** X4. On a 9x9 grid [print_board] reads every cell of the grid exactly
    once, row by row from the top and left to right in a row. *)
Theorem print_board_reads_each_cell_once (x : grid) :
  grid_wf x →
  ∃ t, print_board x = Val tt t
     ∧ visits t = all_cells
     ∧ NoDup (visits t)
     ∧ ∀ r c, 0 ≤ r < 9 → 0 ≤ c < 9 → (r, c) ∈ visits t.
Proof.
  intros Hx. destruct (print_board_run x Hx) as (t & Ht & _ & Hvis).
  exists t. rewrite Hvis. split; [done|]. split; [done|]. split.
  - apply (bool_decide_unpack _). vm_compute. exact I.
  - intros r c Hr Hc. by apply elem_of_all_cells.
Qed.

(** *** Reading a printed board back *)

Lemma read_show_int (v : Z) : read_int (show_int v) = Some v.
Proof. unfold read_int, show_int. rewrite NilEmpty.isi. simpl. by rewrite DecimalZ.of_to. Qed.

Lemma show_int_inj (v w : Z) : show_int v = show_int w → v = w.
Proof.
  intros H. assert (Some v = Some w) as [= ->]; [|done].
  by rewrite <-(read_show_int v), <-(read_show_int w), H.
Qed.

(** Two texts cut at the first occurrence of a character are equal part
    by part. *)
Lemma text_split_at (c : ascii) (s1 s2 r1 r2 : string) :
  count_char c s1 = O → count_char c s2 = O →
  String.append s1 (String c r1) = String.append s2 (String c r2) →
  s1 = s2 ∧ r1 = r2.
Proof.
  revert s2. induction s1 as [|a s1 IH]; intros [|b s2];
    rewrite ?text_app_nil_l, ?text_app_cons; simpl.
  - by intros _ _ [= ->].
  - intros _ Hb [= <- _]. rewrite Ascii.eqb_refl in Hb. done.
  - intros Ha _ [= -> _]. rewrite Ascii.eqb_refl in Ha. done.
  - intros Ha Hb [= -> Heq].
    destruct (Ascii.eqb b c); [done|]. simpl in Ha, Hb.
    destruct (IH s2 Ha Hb Heq) as [-> ->]. done.
Qed.

Lemma cell_text_inv (v w : Z) (r1 r2 : string) :
  String.append (show_int v) (String " " r1) = String.append (show_int w) (String " " r2) →
  v = w ∧ r1 = r2.
Proof.
  intros [Hs ->]%text_split_at; [|apply show_int_no_space..].
  split; [by apply show_int_inj|done].
Qed.

Lemma content_line_inj (r r' : list Z) :
  length r = 9%nat → length r' = 9%nat →
  spec_content_line r = spec_content_line r' → r = r'.
Proof.
  intros Hlen Hlen'.
  do 10 (destruct r as [|? r]; try discriminate Hlen).
  do 10 (destruct r' as [|? r']; try discriminate Hlen').
  unfold spec_content_line, spec_cell_text. simpl.
  rewrite !text_app_assoc, ?text_app_cons, ?text_app_nil_l.
  intros H.
  repeat match type of H with
         | String _ _ = String _ _ => injection H as H
         | String.append (show_int _) _ = String.append (show_int _) _ =>
             apply cell_text_inv in H as [-> H]
         end.
  done.
Qed.

Lemma board_lines_rows (x y : grid) :
  length x = 9%nat → length y = 9%nat →
  board_lines x = board_lines y →
  spec_content_line <$> x = spec_content_line <$> y.
Proof.
  intros Hx Hy. unfold board_lines.
  assert (length (spec_content_line <$> x) = 9%nat) as Hlx by by rewrite length_fmap.
  assert (length (spec_content_line <$> y) = 9%nat) as Hly by by rewrite length_fmap.
  revert Hlx Hly.
  generalize (spec_content_line <$> x), (spec_content_line <$> y). intros la lb Hla Hlb.
  do 10 (destruct la as [|? la]; try discriminate Hla).
  do 10 (destruct lb as [|? lb]; try discriminate Hlb).
  intros [= -> -> -> -> -> -> -> -> ->]. done.
Qed.

Lemma content_lines_inj (x y : grid) :
  Forall (λ row : list Z, length row = 9%nat) x →
  Forall (λ row : list Z, length row = 9%nat) y →
  spec_content_line <$> x = spec_content_line <$> y → x = y.
Proof.
  intros Hx. revert y. induction Hx as [|r x Hr _ IH]; intros [|r' y] Hy; try done.
  apply Forall_cons_1 in Hy as [Hr' Hy]. rewrite !fmap_cons.
  intros H.
  pose proof (f_equal (λ l, default EmptyString (head l)) H) as Hline.
  pose proof (f_equal tail H) as Hrest. simpl in Hline, Hrest.
  f_equal; [by apply content_line_inj|by apply IH].
Qed.

(** X5. The text [print_board] writes determines the grid: two 9x9 grids
    printed as the same text are the same grid. *)
Theorem print_board_text_determines_grid (x y : grid) (t t' : trace) :
  grid_wf x → grid_wf y →
  print_board x = Val tt t → print_board y = Val tt t' →
  stdout t = stdout t' → x = y.
Proof.
  intros Hx Hy Ht Ht' Hout.
  assert (board_lines x = board_lines y) as Hlines
    by (by rewrite <-(print_board_lines x t), <-(print_board_lines y t'), Hout).
  destruct Hx as [Hlen Hrows], Hy as [Hlen' Hrows'].
  by apply content_lines_inj, board_lines_rows.
Qed.

(** *** The width of the lines *)

Lemma text_length_app (s1 s2 : string) :
  String.length (String.append s1 s2) = (String.length s1 + String.length s2)%nat.
Proof.
  induction s1 as [|a s1 IH]; [done|]. rewrite text_app_cons. simpl. by rewrite IH.
Qed.

Lemma show_digit_length (v : Z) : 0 ≤ v ≤ 9 → String.length (show_int v) = 1%nat.
Proof.
  intros Hv.
  assert (v = 0 ∨ v = 1 ∨ v = 2 ∨ v = 3 ∨ v = 4 ∨ v = 5 ∨ v = 6 ∨ v = 7 ∨ v = 8 ∨ v = 9)
    as Hcases by lia.
  repeat (destruct Hcases as [->|Hcases]; [reflexivity|]). by subst.
Qed.

Lemma content_line_width (r : list Z) :
  length r = 9%nat → Forall (λ v, 0 ≤ v ≤ 9) r →
  String.length (spec_content_line r) = 25%nat.
Proof.
  intros Hlen Hr. do 10 (destruct r as [|? r]; try discriminate Hlen).
  repeat match goal with
         | H : Forall _ (_ :: _) |- _ => apply Forall_cons_1 in H as [? H]
         end.
  unfold spec_content_line, spec_cell_text. simpl.
  rewrite !text_length_app, !show_digit_length by done. reflexivity.
Qed.

(** X6. When every value of a 9x9 grid is a single digit (0 to 9), every
    line [print_board] writes is 25 characters wide: the rows are as wide
    as the dash lines. *)
Theorem print_board_lines_are_aligned (x : grid) :
  grid_wf x → Forall (Forall (λ v, 0 ≤ v ≤ 9)) x →
  ∃ t, print_board x = Val tt t
     ∧ length (lines (stdout t)) = 13%nat
     ∧ Forall (λ l, String.length l = 25%nat) (lines (stdout t)).
Proof.
  intros Hx Hdigits. destruct (print_board_run x Hx) as (t & Ht & _).
  exists t. split; [done|]. rewrite (print_board_lines x t Hx Ht).
  destruct Hx as [Hlen Hrows].
  do 10 (destruct x as [|? x]; try discriminate Hlen).
  assert (Forall (λ r, String.length (spec_content_line r) = 25%nat)
            [l; l0; l1; l2; l3; l4; l5; l6; l7]) as Hw.
  { apply Forall_forall. intros r Hr. apply content_line_width.
    - by apply (proj1 (Forall_forall _ _) Hrows).
    - by apply (proj1 (Forall_forall _ _) Hdigits). }
  clear Hrows Hdigits.
  repeat match goal with
         | H : Forall _ (_ :: _) |- _ => apply Forall_cons_1 in H as [? H]
         end.
  split; [reflexivity|].
  unfold board_lines. simpl. repeat (constructor; [done|]). constructor.
Qed.

(** ** More on the checkers *)

Lemma concat_diag_nil (l : list (Z * Z)) :
  concat_text (box_diag <$> l) = EmptyString ↔ l = [].
Proof.
  split; [|by intros ->]. destruct l as [|p l]; [done|].
  rewrite fmap_cons. simpl. unfold box_diag.
  rewrite !text_app_assoc, !text_app_cons. done.
Qed.

Lemma box_dups_nil (x : grid) :
  box_dups x = [] ↔ ∀ b, 0 ≤ b < 9 → dups (unit_vals x (box_cells b)) ∅ = [].
Proof.
  split.
  - intros Hnil b Hb. destruct (dups (unit_vals x (box_cells b)) ∅) as [|v l] eqn:E; [done|].
    assert ((b, v) ∈ box_dups x) as Hin; [|rewrite Hnil in Hin; by apply elem_of_nil in Hin].
    unfold box_dups. apply list_elem_of_bind. exists b.
    split; [|by apply elem_of_idx9]. rewrite E. left.
  - intros Hall. destruct (box_dups x) as [|[b v] l] eqn:E; [done|].
    assert ((b, v) ∈ box_dups x) as [Hb Hin]%box_dups_box by (rewrite E; left).
    rewrite (Hall b Hb) in Hin. by apply elem_of_nil in Hin.
Qed.

(** X7. On a 9x9 grid [check_box], which always returns true, writes
    nothing exactly when in each of the nine boxes every non-zero value
    occurs at most once: its text alone tells whether the boxes are
    valid. *)
Theorem check_box_silent_iff_boxes_unique (x : grid) :
  grid_wf x →
  ∃ t, check_box x = Val true t
     ∧ (stdout t = EmptyString
        ↔ ∀ b, 0 ≤ b < 9 → unit_unique (unit_vals x (box_cells b))).
Proof.
  intros Hx. destruct (check_box_run x Hx) as (t & Ht & Hout & _).
  exists t. split; [done|]. rewrite Hout, concat_diag_nil, box_dups_nil.
  split; intros H b Hb.
  - by apply index_None_unique, dup_index_dups, H.
  - by apply dup_index_dups, unit_unique_index, H.
Qed.

Lemma dups_nonzero (l : list Z) (num : gset Z) : dups (nonzero l) num = dups l num.
Proof.
  unfold nonzero. revert num. induction l as [|v l IH]; intros num; [done|].
  rewrite filter_cons. simpl. destruct (Z.eqb_spec v 0) as [->|Hv].
  - by rewrite decide_False by (by intros []).
  - rewrite decide_True by done. simpl. rewrite (proj2 (Z.eqb_neq v 0) Hv).
    by rewrite !IH.
Qed.

Lemma scan_result_same (cells cells' : list (Z * Z)) (l l' : list Z) (o o' : outcome bool) :
  nonzero l = nonzero l' →
  scan_result cells (dup_index l ∅) o →
  scan_result cells' (dup_index l' ∅) o' →
  ∃ b t t', o = Val b t ∧ o' = Val b t' ∧ stdout t = stdout t'.
Proof.
  intros Hnz (t & -> & Hout & _) (t' & -> & Hout' & _).
  assert (dup_index l ∅ = None ↔ dup_index l' ∅ = None) as Hiff
    by (by rewrite !dup_index_dups, <-(dups_nonzero l), <-(dups_nonzero l'), Hnz).
  exists (bool_decide (dup_index l ∅ = None)), t, t'.
  split; [done|]. rewrite Hout, Hout'.
  destruct (dup_index l ∅), (dup_index l' ∅); try done.
  - destruct Hiff as [_ Hiff]. by specialize (Hiff eq_refl).
  - destruct Hiff as [Hiff _]. by specialize (Hiff eq_refl).
Qed.

(** X8. The result and the text of [check_row] and [check_col] depend
    only on the non-zero values of the unit, in scan order: two rows, two
    columns, or a row and a column (of the same 9x9 grid or of two) with
    the same non-zero values in the same order, wherever the zeros are,
    get the same result and the same text. *)
Theorem row_col_checks_see_nonzero_values_only (x y : grid) (n m : Z) :
  grid_wf x → grid_wf y → 0 ≤ n < 9 → 0 ≤ m < 9 →
  (nonzero (unit_vals x (row_cells n)) = nonzero (unit_vals y (row_cells m)) →
   ∃ b t t', check_row x n = Val b t ∧ check_row y m = Val b t'
           ∧ stdout t = stdout t')
  ∧
  (nonzero (unit_vals x (col_cells n)) = nonzero (unit_vals y (col_cells m)) →
   ∃ b t t', check_col x n = Val b t ∧ check_col y m = Val b t'
           ∧ stdout t = stdout t')
  ∧
  (nonzero (unit_vals x (row_cells n)) = nonzero (unit_vals y (col_cells m)) →
   ∃ b t t', check_row x n = Val b t ∧ check_col y m = Val b t'
           ∧ stdout t = stdout t').
Proof.
  intros Hx Hy Hn Hm. rewrite !check_row_cells, !check_col_cells.
  split_and!; intros Hnz;
    (eapply scan_result_same; [exact Hnz|apply scan_cells_run..]);
    auto using row_cells_ok, col_cells_ok.
Qed.

(** What a scan inserts: values not seen before, each once; after a scan
    that runs to the end, every non-zero value of the unit is in the seen
    set. *)
Lemma scan_cells_inserts (x : grid) (cells : list (Z * Z)) (num : gset Z)
    (b : bool) (t : trace) :
  cells_ok x cells → scan_cells x cells num = Val b t →
  NoDup (inserts t)
  ∧ (∀ v, v ∈ inserts t → (v ∉ num) ∧ v ≠ 0 ∧ v ∈ unit_vals x cells)
  ∧ (b = true → visits t = cells
       ∧ ∀ v, v ∈ unit_vals x cells → v ≠ 0 → v ∈ num ∨ v ∈ inserts t).
Proof.
  intros Hok. revert num b t.
  induction Hok as [|p cells [v Hv] _ IH]; intros num b t.
  { intros [= <- <-]. split; [constructor|]. split; [by intros v Hv%elem_of_nil|].
    intros _. split; [done|]. by intros v Hv%elem_of_nil. }
  rewrite (unit_vals_cons _ _ _ _ Hv). simpl. unfold visit. rewrite Hv. simpl.
  destruct (Z.eqb_spec v 0) as [->|Hv0].
  - destruct (scan_cells x cells num) as [b' t'| |] eqn:Hs; [|done..].
    intros [= <- <-]. simpl. destruct (IH _ _ _ Hs) as (Hnd & Hin & Hall).
    split; [done|]. split.
    + intros w Hw. destruct (Hin w Hw) as (? & ? & ?). split_and!; [done..|by right].
    + intros Hb. destruct (Hall Hb) as [-> Hcov]. split; [by destruct p|].
      intros w [->|Hw]%elem_of_cons Hw0; [done|by apply Hcov].
  - destruct (decide (v ∈ num)) as [Hnum|Hnum].
    + intros [= <- <-]. simpl. split; [constructor|].
      split; [by intros w Hw%elem_of_nil|done].
    + simpl. destruct (scan_cells x cells ({[v]} ∪ num)) as [b' t'| |] eqn:Hs; [|done..].
      intros [= <- <-]. simpl. destruct (IH _ _ _ Hs) as (Hnd & Hin & Hall).
      split_and!.
      * constructor; [|done]. intros Hv'. destruct (Hin v Hv') as [Hfresh _].
        apply Hfresh, elem_of_union_l. by apply elem_of_singleton.
      * intros w [->|Hw]%elem_of_cons; [split_and!; [done..|by left]|].
        destruct (Hin w Hw) as (Hfresh & ? & ?). split_and!; [|done|by right].
        intros Hw'. by apply Hfresh, elem_of_union_r.
      * intros Hb. destruct (Hall Hb) as [-> Hcov]. split; [by destruct p|].
        intros w [->|Hw]%elem_of_cons Hw0; [right; left|].
        destruct (Hcov w Hw Hw0) as [[->%elem_of_singleton|Hw']%elem_of_union|Hw'].
        -- right. left.
        -- by left.
        -- right. by right.
Qed.

(** X9. On a 9x9 grid, for an index in [0,8], [check_row] and [check_col]
    insert a value in the seen set at most once, and only non-zero values
    of the unit; when the result is true they have visited all nine cells
    of the unit and inserted each of its non-zero values. *)
Theorem row_col_checks_fill_the_seen_set (x : grid) (n : Z) :
  grid_wf x → 0 ≤ n < 9 →
  (∃ b t, check_row x n = Val b t
        ∧ NoDup (inserts t)
        ∧ (∀ v, v ∈ inserts t → v ≠ 0 ∧ v ∈ unit_vals x (row_cells n))
        ∧ (b = true → visits t = row_cells n
             ∧ ∀ v, v ∈ unit_vals x (row_cells n) → v ≠ 0 → v ∈ inserts t))
  ∧
  (∃ b t, check_col x n = Val b t
        ∧ NoDup (inserts t)
        ∧ (∀ v, v ∈ inserts t → v ≠ 0 ∧ v ∈ unit_vals x (col_cells n))
        ∧ (b = true → visits t = col_cells n
             ∧ ∀ v, v ∈ unit_vals x (col_cells n) → v ≠ 0 → v ∈ inserts t)).
Proof.
  intros Hx Hn. rewrite check_row_cells, check_col_cells. split.
  - pose proof (row_cells_ok x n Hx Hn) as Hok.
    destruct (scan_cells_run x _ ∅ Hok) as (t & Ht & _).
    destruct (scan_cells_inserts x _ ∅ _ t Hok Ht) as (Hnd & Hin & Hall).
    eexists _, t. split_and!; [done..| |].
    + intros v Hv. by destruct (Hin v Hv) as (_ & ? & ?).
    + intros Hb. destruct (Hall Hb) as [Hvis Hcov]. split; [done|].
      intros v Hv Hv0. destruct (Hcov v Hv Hv0) as [Hv'|]; [|done].
      by apply not_elem_of_empty in Hv'.
  - pose proof (col_cells_ok x n Hx Hn) as Hok.
    destruct (scan_cells_run x _ ∅ Hok) as (t & Ht & _).
    destruct (scan_cells_inserts x _ ∅ _ t Hok Ht) as (Hnd & Hin & Hall).
    eexists _, t. split_and!; [done..| |].
    + intros v Hv. by destruct (Hin v Hv) as (_ & ? & ?).
    + intros Hb. destruct (Hall Hb) as [Hvis Hcov]. split; [done|].
      intros v Hv Hv0. destruct (Hcov v Hv Hv0) as [Hv'|]; [|done].
      by apply not_elem_of_empty in Hv'.
Qed.

Lemma filter_box_bind (bs : list Z) (f : Z → list Z) (b : Z) :
  filter (λ p : Z * Z, p.1 = b) (b' ← bs; pair b' <$> f b')
  = (b' ← filter (λ b', b' = b) bs; pair b' <$> f b').
Proof.
  assert (∀ b' l, filter (λ p : Z * Z, p.1 = b) (pair b' <$> l)
                  = if decide (b' = b) then pair b' <$> l else []) as Hfmap.
  { intros b' l. induction l as [|w l IH]; [by case_decide|].
    rewrite fmap_cons, filter_cons, IH. simpl. by case_decide. }
  induction bs as [|b' bs IH]; [done|].
  rewrite bind_cons, filter_app, IH, Hfmap, filter_cons.
  case_decide; [by rewrite bind_cons|done].
Qed.

Lemma unit_vals_agree (x y : grid) (cells : list (Z * Z)) :
  agree_on x y cells → unit_vals x cells = unit_vals y cells.
Proof.
  unfold unit_vals. induction 1 as [|p cells Hp _ IH]; [done|].
  simpl. rewrite Hp. destruct (cell y p.1 p.2); simpl; [f_equal|]; exact IH.
Qed.

(** X10. The diagnostics [check_box] writes for a box depend only on the
    cells of that box: on two 9x9 grids that agree on box [b], the
    reports for box [b] are the same values in the same order, whatever
    the other boxes hold. *)
Theorem check_box_reports_are_local (x y : grid) (b : Z) :
  grid_wf x → grid_wf y → agree_on x y (box_cells b) →
  ∃ t t', check_box x = Val true t ∧ check_box y = Val true t'
        ∧ stdout t = concat_text (box_diag <$> box_dups x)
        ∧ stdout t' = concat_text (box_diag <$> box_dups y)
        ∧ filter (λ p, p.1 = b) (box_dups x) = filter (λ p, p.1 = b) (box_dups y).
Proof.
  intros Hx Hy Hag.
  destruct (check_box_run x Hx) as (t & Ht & Hout & _).
  destruct (check_box_run y Hy) as (t' & Ht' & Hout' & _).
  exists t, t'. split_and!; [done..|].
  unfold box_dups.
  rewrite (filter_box_bind idx9 (λ b, dups (unit_vals x (box_cells b)) ∅)).
  rewrite (filter_box_bind idx9 (λ b, dups (unit_vals y (box_cells b)) ∅)).
  induction (filter (λ b', b' = b) idx9) as [|b' l IH] eqn:E; [done|].
  assert (Forall (λ b', b' = b) (b' :: l)) as [-> Hl]%Forall_cons_1
    by (rewrite <-E; apply Forall_forall; by intros ? [? _]%list_elem_of_filter).
  rewrite !bind_cons, (unit_vals_agree x y _ Hag). f_equal.
  clear E IH. induction Hl as [|b' l -> _ IH]; [done|].
  by rewrite !bind_cons, (unit_vals_agree x y _ Hag), IH.
Qed.

(** ** The further properties at work, and the two programs *)

(** The checker program writes the board, an empty line, and for each
    checker its diagnostics followed by its result; both programs end
    with status 0. *)
Example main_run :
  ∃ t, main = Val 0 t
     ∧ drop 13 (lines (stdout t))
       = [ EmptyString; "dupe"; "0"; "dupe"; "0";
           "dupe in box-0"; String.append tab "dupe for number: 2";
           "dupe in box-0"; String.append tab "dupe for number: 3";
           "dupe in box-2"; String.append tab "dupe for number: 1";
           "dupe in box-2"; String.append tab "dupe for number: 1";
           "dupe in box-4"; String.append tab "dupe for number: 1";
           "dupe in box-4"; String.append tab "dupe for number: 1";
           "dupe in box-6"; String.append tab "dupe for number: 1";
           "dupe in box-6"; String.append tab "dupe for number: 1";
           "1" ]%string.
Proof. eexists. split; [vm_compute; reflexivity|]. by vm_compute. Qed.

Example main_cpp_run :
  ∃ t, MainProgram.main = Val 0 t ∧ lines (stdout t) = board_lines board_main.
Proof. eexists. split; [vm_compute; reflexivity|]. by vm_compute. Qed.

Example print_box_board_0 :
  ∃ t, print_box board 0 = Val tt t ∧ stdout t = "123200300"%string.
Proof. eexists. split; [vm_compute; reflexivity|]. by vm_compute. Qed.

Lemma print_box_writes_the_box_witness :
  ∃ t, print_box board 4 = Val tt t
     ∧ visits t = box_cells 4
     ∧ stdout t = concat_text (show_int <$> unit_vals board (box_cells 4))
     ∧ length (unit_vals board (box_cells 4)) = length (box_cells 4)
     ∧ count_char "010" (stdout t) = O
     ∧ count_char " " (stdout t) = O.
Proof. apply (print_box_writes_the_box board 4). grid_shape. Defined.

Lemma print_box_unknown_box_is_silent_witness : print_box board 9 = Val tt [].
Proof. apply (print_box_unknown_box_is_silent board 9). lia. Defined.

Lemma print_box_depends_on_box_only_witness :
  print_box board 0 = print_box board_alt 0.
Proof.
  apply (print_box_depends_on_box_only board board_alt 0).
  vm_compute. repeat constructor.
Defined.

Lemma print_board_reads_each_cell_once_witness :
  ∃ t, print_board board = Val tt t
     ∧ visits t = all_cells
     ∧ NoDup (visits t)
     ∧ ∀ r c, 0 ≤ r < 9 → 0 ≤ c < 9 → (r, c) ∈ visits t.
Proof. apply (print_board_reads_each_cell_once board). grid_shape. Defined.

Lemma print_board_text_determines_grid_witness : board_main = board_main.
Proof.
  eapply (print_board_text_determines_grid board_main board_main);
    [grid_shape|grid_shape|vm_compute; reflexivity|vm_compute; reflexivity|reflexivity].
Defined.

Lemma print_board_lines_are_aligned_witness :
  ∃ t, print_board board = Val tt t
     ∧ length (lines (stdout t)) = 13%nat
     ∧ Forall (λ l, String.length l = 25%nat) (lines (stdout t)).
Proof.
  apply (print_board_lines_are_aligned board); [grid_shape|].
  apply (bool_decide_unpack _). vm_compute. exact I.
Defined.

Lemma check_box_silent_iff_boxes_unique_witness :
  ∃ t, check_box board_main = Val true t
     ∧ (stdout t = EmptyString
        ↔ ∀ b, 0 ≤ b < 9 → unit_unique (unit_vals board_main (box_cells b))).
Proof. apply (check_box_silent_iff_boxes_unique board_main). grid_shape. Defined.

Lemma row_col_checks_see_nonzero_values_only_witness :
  (∃ b t t', check_row board 8 = Val b t ∧ check_row board_main 3 = Val b t'
           ∧ stdout t = stdout t')
  ∧
  (∃ b t t', check_col board 8 = Val b t ∧ check_col board_main 3 = Val b t'
           ∧ stdout t = stdout t')
  ∧
  (∃ b t t', check_row board 8 = Val b t ∧ check_col board_main 3 = Val b t'
           ∧ stdout t = stdout t').
Proof.
  destruct (row_col_checks_see_nonzero_values_only board board_main 8 3)
    as (Hrr & Hcc & Hrc); [grid_shape|grid_shape|lia|lia|].
  split_and!; [apply Hrr|apply Hcc|apply Hrc]; reflexivity.
Defined.

Lemma row_col_checks_fill_the_seen_set_witness :
  (∃ b t, check_row board 1 = Val b t
        ∧ NoDup (inserts t)
        ∧ (∀ v, v ∈ inserts t → v ≠ 0 ∧ v ∈ unit_vals board (row_cells 1))
        ∧ (b = true → visits t = row_cells 1
             ∧ ∀ v, v ∈ unit_vals board (row_cells 1) → v ≠ 0 → v ∈ inserts t))
  ∧
  (∃ b t, check_col board 1 = Val b t
        ∧ NoDup (inserts t)
        ∧ (∀ v, v ∈ inserts t → v ≠ 0 ∧ v ∈ unit_vals board (col_cells 1))
        ∧ (b = true → visits t = col_cells 1
             ∧ ∀ v, v ∈ unit_vals board (col_cells 1) → v ≠ 0 → v ∈ inserts t)).
Proof. apply (row_col_checks_fill_the_seen_set board 1); [grid_shape|lia]. Defined.

Lemma check_box_reports_are_local_witness :
  ∃ t t', check_box board = Val true t ∧ check_box board_alt = Val true t'
        ∧ stdout t = concat_text (box_diag <$> box_dups board)
        ∧ stdout t' = concat_text (box_diag <$> box_dups board_alt)
        ∧ filter (λ p, p.1 = 0) (box_dups board)
          = filter (λ p, p.1 = 0) (box_dups board_alt).
Proof.
  apply (check_box_reports_are_local board board_alt 0); [grid_shape|grid_shape|].
  vm_compute. repeat constructor.
Defined.
